(** * leerdatos.py: load a CSV, print a summary, save diagnostic plots

    A shallow embedding of [main] from [leerdatos.py].

    The script is one straight-line routine that talks to three libraries
    (pandas, matplotlib, seaborn), to the file system and to standard
    output.  The embedding keeps that shape:

    - a [DataFrame] is a list of typed column labels and a list of rows;
      the pandas calls whose result is determined by that structure
      ([shape], [head], [duplicated], boolean-mask selection,
      [select_dtypes], the column selection of [describe]) are functions
      on it;
    - text layout and floating-point statistics are the library's business:
      they are fields of a [Pandas] record, and the script only prints what
      they return;
    - every call with an outside effect is recorded, in program order, as an
      [event]; a run is the list of events together with the way the
      routine ended (fell off the end, early [return], uncaught exception);
    - the environment the script reads (are the imports available, where is
      the script, which paths exist, what does [read_csv] answer) is a
      [World].

    Exceptions appear where the script handles them (the imports, the two
    [read_csv] attempts), where pandas raises because of the shape of the
    data ([describe] with nothing selected), and where a drawing or a
    saving call raises ([histplot], [boxplot], [heatmap], [savefig]: a
    column name with a [/] in it makes [savefig] look for a directory that
    is not there).  Whether such a call raises is the library's answer,
    like the text it lays out.  [sns.set], [mkdir], [plt.figure], the
    titles and [plt.close] are recorded as done.  The pixels of the images
    are outside the embedding. *)

From Stdlib Require Import List String Ascii Bool Arith PeanoNat Lia.
From Stdlib Require Import QArith DecimalString.
Import ListNotations.
Local Open Scope nat_scope.
Local Open Scope list_scope.
Local Open Scope string_scope.

Set Implicit Arguments.

(** ** Strings *)

(** The newline character written [\n] in the Python literals. *)
Definition nl : string := String (ascii_of_nat 10) EmptyString.

(** [str(n)] for a non-negative integer. *)
Definition str_nat (n : nat) : string := NilZero.string_of_uint (Nat.to_uint n).

(** [s.startswith(p)]. *)
Definition startswith (s p : string) : bool := String.prefix p s.

(** ** Exceptions *)

Record exn : Type := Exn { exn_class : string; exn_msg : string }.

(** [str(e)], what [print(..., e)] shows. *)
Definition str_exn (e : exn) : string := exn_msg e.

Definition ValueError (msg : string) : exn := Exn "ValueError" msg.

(** ** Column types *)

(** The dtypes the embedding tells apart, under the names pandas 1 and 2
    give them: the ones [read_csv] infers by default ([int64], [uint64] for
    integers beyond the [int64] range, [float64], [bool], and [object] for
    text), [category], which the script tests for, and [datetime64].  A
    frame with another dtype (the [str] of pandas 3, say) is not a frame of
    this embedding. *)
Inductive dtype : Type :=
  int64 | uint64 | float64 | bool_ | object_ | category | datetime64.

(** [str(dtype)]. *)
Definition str_dtype (d : dtype) : string :=
  match d with
  | int64 => "int64"
  | uint64 => "uint64"
  | float64 => "float64"
  | bool_ => "bool"
  | object_ => "object"
  | category => "category"
  | datetime64 => "datetime64[ns]"
  end.

(** Columns selected by [include='number']. *)
Definition is_number (d : dtype) : bool :=
  match d with int64 | uint64 | float64 => true | _ => false end.

(** Columns selected by [include=['object', 'category']]. *)
Definition is_object_or_category (d : dtype) : bool :=
  match d with object_ | category => true | _ => false end.

(** The test of line 92:
    [df[c].dtype == 'object' or str(df[c].dtype).startswith('category')]. *)
Definition is_cat_dtype (d : dtype) : bool :=
  String.eqb (str_dtype d) "object" || startswith (str_dtype d) "category".

(** ** Data frames *)

Section Frames.

Variable cell : Type.

Definition row : Type := list cell.

Record DataFrame : Type := Frame {
  df_columns : list (string * dtype);
  df_rows : list row
}.

(** [df.shape]. *)
Definition shape (df : DataFrame) : nat * nat :=
  (List.length (df_rows df), List.length (df_columns df)).

(** [repr] of a pair of integers, as [print] shows [df.shape]. *)
Definition repr_shape (s : nat * nat) : string :=
  "(" ++ str_nat (fst s) ++ ", " ++ str_nat (snd s) ++ ")".

(** [df.head(n)]. *)
Definition head (n : nat) (df : DataFrame) : DataFrame :=
  Frame (df_columns df) (firstn n (df_rows df)).

(** [df[mask]] for a boolean mask aligned with the rows. *)
Fixpoint mask_rows (rs : list row) (mask : list bool) : list row :=
  match rs, mask with
  | r :: rs', b :: mask' =>
      if b then r :: mask_rows rs' mask' else mask_rows rs' mask'
  | _, _ => []
  end.

Definition getitem_mask (df : DataFrame) (mask : list bool) : DataFrame :=
  Frame (df_columns df) (mask_rows (df_rows df) mask).

(** [mask.sum()]: the number of [True] entries. *)
Definition sum_mask (mask : list bool) : nat := List.length (filter (fun b => b) mask).

(** Positions of the columns that satisfy [p]. *)
Fixpoint positions_from (i : nat) (p : string * dtype -> bool)
    (cols : list (string * dtype)) : list nat :=
  match cols with
  | [] => []
  | c :: cols' =>
      if p c then i :: positions_from (S i) p cols' else positions_from (S i) p cols'
  end.

Definition positions := positions_from 0.

(** The cells of one row at the given positions. *)
Definition take_cells (idx : list nat) (r : row) : row :=
  flat_map (fun i => match nth_error r i with Some v => [v] | None => [] end) idx.

(** The frame restricted to the columns at the given positions. *)
Definition take_columns (idx : list nat) (df : DataFrame) : DataFrame :=
  Frame (flat_map (fun i => match nth_error (df_columns df) i with
                            | Some c => [c] | None => [] end) idx)
        (map (take_cells idx) (df_rows df)).

(** [df.select_dtypes(include=...)]. *)
Definition select_dtypes (include : dtype -> bool) (df : DataFrame) : DataFrame :=
  take_columns (positions (fun c => include (snd c)) (df_columns df)) df.

(** [df.select_dtypes(include='number').columns.tolist()]. *)
Definition num_cols (df : DataFrame) : list string :=
  map fst (df_columns (select_dtypes is_number df)).

(** [[c for c in df.columns if ...]] of line 92. *)
Definition cat_cols (df : DataFrame) : list string :=
  map fst (filter (fun c => is_cat_dtype (snd c)) (df_columns df)).

(** [df[names]]: the columns with these labels, in the order asked. *)
Definition getitem_columns (df : DataFrame) (names : list string) : DataFrame :=
  take_columns
    (flat_map (fun n => firstn 1 (positions (fun c => String.eqb (fst c) n)
                                            (df_columns df))) names) df.

(** [df[c]]: the values of the column labelled [c]. *)
Definition getitem (df : DataFrame) (c : string) : list cell :=
  flat_map (fun r => r) (df_rows (getitem_columns df [c])).

(** [df.describe(include=...)] first selects the columns of the kinds asked
    for and then concatenates one block of statistics per selected column.
    pandas refuses a frame without columns, and the concatenation raises
    when the selection is empty.  The result here is the selected frame; the
    statistics themselves are rendered by the library. *)
Definition describe (include : dtype -> bool) (df : DataFrame) : exn + DataFrame :=
  match df_columns df with
  | [] => inl (ValueError "Cannot describe a DataFrame without columns")
  | _ :: _ =>
      let data := select_dtypes include df in
      match df_columns data with
      | [] => inl (ValueError "No objects to concatenate")
      | _ :: _ => inr data
      end
  end.

(** *** The library *)

(** What the script takes from its libraries without looking inside: the
    equality that [duplicated] compares cells with, the missing-value test,
    the frequency table of a column, the text layout of everything it
    prints, and, for each drawing or saving call, the exception it raises
    if it raises one ([sns.histplot] and [sns.boxplot] on the values they
    are given, [sns.heatmap] on the frame whose correlation it draws,
    [plt.savefig] on the path). *)
Record Pandas : Type := {
  cell_eq_dec : forall x y : cell, {x = y} + {x <> y};
  isna : cell -> bool;
  value_counts : list cell -> list (cell * nat);
  to_string : DataFrame -> string;
  repr_dtypes : list (string * dtype) -> string;
  repr_counts : list (string * nat) -> string;
  repr_describe_T : DataFrame -> string;
  repr_describe : DataFrame -> string;
  repr_value_counts : list (cell * nat) -> string;
  histplot_error : list cell -> option exn;
  boxplot_error : list cell -> option exn;
  heatmap_error : DataFrame -> option exn;
  savefig_error : string -> option exn
}.

Variable pd : Pandas.

Definition row_eq_dec : forall r1 r2 : row, {r1 = r2} + {r1 <> r2} :=
  list_eq_dec (cell_eq_dec pd).

(** [df.duplicated()] with its defaults (all columns, [keep='first']): a
    row is flagged when an equal row occurs above it. *)
Fixpoint duplicated_from (seen rs : list row) : list bool :=
  match rs with
  | [] => []
  | r :: rs' =>
      (if in_dec row_eq_dec r seen then true else false)
        :: duplicated_from (r :: seen) rs'
  end.

Definition duplicated (df : DataFrame) : list bool :=
  duplicated_from [] (df_rows df).

(** [dup_count = df.duplicated().sum()]. *)
Definition dup_count (df : DataFrame) : nat := sum_mask (duplicated df).

(** [s.dropna()]. *)
Definition dropna (s : list cell) : list cell := filter (fun v => negb (isna pd v)) s.

(** [df.isnull().sum()]: per column, the number of missing cells. *)
Definition null_counts (df : DataFrame) : list (string * nat) :=
  map (fun c => (c, List.length (filter (isna pd) (getitem df c))))
      (map fst (df_columns df)).

End Frames.

Arguments Frame {cell} _ _.

(** ** Runs *)

Section Script.

Variable cell : Type.
Variable pd : Pandas cell.

(** The matrix handed to the heat map: [frame.corr()] with the library's
    default arguments, kept symbolic (its entries are floating point). *)
Inductive matrix : Type := Corr (frame : DataFrame cell).

(** The calls with an effect outside the routine. *)
Inductive event : Type :=
| Stdout (text : string)                     (* print(text) *)
| PrintExc (e context : exn)                 (* traceback.print_exc() *)
| SnsSet (style : string)                    (* sns.set(style=...) *)
| ReadCsv (path : string) (sep : option string)  (* pd.read_csv(path[, sep=...]) *)
| Mkdir (path : string)                      (* path.mkdir(exist_ok=True) *)
| Figure (figsize : Q * Q)                   (* plt.figure(figsize=...) *)
| Histplot (data : list cell) (kde : bool)   (* sns.histplot(data, kde=...) *)
| Boxplot (x : list cell)                    (* sns.boxplot(x=...) *)
| Heatmap (data : matrix) (annot : bool) (fmt cmap : string) (square : bool)
| Title (text : string)                      (* plt.title(text) *)
| TightLayout                                (* plt.tight_layout() *)
| Savefig (path : string)                    (* plt.savefig(path) *)
| Close.                                     (* plt.close() *)

(** How a block of statements ends: it runs to its end with a value, it
    executes [return], or an exception leaves it. *)
Inductive outcome (A : Type) : Type :=
| Normal (a : A)
| Returned
| Raised (e : exn).

Arguments Returned {A}.
Arguments Raised {A} _.

Definition Run (A : Type) : Type := (list event * outcome A)%type.

Definition ret {A} (a : A) : Run A := ([], Normal a).

Definition bind {A B} (m : Run A) (k : A -> Run B) : Run B :=
  match m with
  | (t, Normal a) => let (t', o) := k a in ((t ++ t')%list, o)
  | (t, Returned) => (t, Returned)
  | (t, Raised e) => (t, Raised e)
  end.

Notation "x <- m ;; k" := (bind m (fun x => k))
  (at level 61, m at next level, right associativity).
Notation "m ;; k" := (bind m (fun _ => k))
  (at level 61, right associativity).

Definition effect (e : event) : Run unit := ([e], Normal tt).
Definition print (text : string) : Run unit := effect (Stdout text).
Definition return_ {A} : Run A := ([], Returned).
Definition raise {A} (e : exn) : Run A := ([], Raised e).

(** A library call that either raises or yields a value. *)
Definition call {A} (r : exn + A) : Run A :=
  match r with inl e => raise e | inr a => ret a end.

(** A library call with an effect, which happens unless the call raises. *)
Definition attempt (error : option exn) (e : event) : Run unit :=
  match error with Some x => raise x | None => effect e end.

(** [try: body / except Exception as e: handler]. *)
Definition try_except {A} (body : Run A) (handler : exn -> Run A) : Run A :=
  match body with
  | (t, Raised e) => let (t', o) := handler e in ((t ++ t')%list, o)
  | r => r
  end.

(** [if cond: body] *)
Definition when (cond : bool) (body : Run unit) : Run unit :=
  if cond then body else ret tt.

(** [for x in xs: body] *)
Fixpoint for_each {X} (xs : list X) (body : X -> Run unit) : Run unit :=
  match xs with
  | [] => ret tt
  | x :: xs' => body x ;; for_each xs' body
  end.

(** ** The environment *)

Record World : Type := {
  (** the first failure among the three imports, if any *)
  import_error : option exn;
  (** [Path(__file__).resolve().parent], as text *)
  base : string;
  (** [Path.exists] *)
  path_exists : string -> bool;
  (** [pd.read_csv(path)] and [pd.read_csv(path, sep=...)] *)
  read_csv : string -> option string -> exn + DataFrame cell
}.

(** [directory / name], as text. *)
Definition path_join (directory name : string) : string := directory ++ "/" ++ name.

Definition imports (w : World) : Run unit :=
  match import_error w with Some e => raise e | None => ret tt end.

Definition pd_read_csv (w : World) (path : string) (sep : option string)
  : Run (DataFrame cell) :=
  effect (ReadCsv path sep) ;; call (read_csv w path sep).

(** Two-argument [max(a, b)]: the first argument unless the second is
    strictly larger. *)
Definition py_max (a b : Q) : Q := if Qlt_le_dec a b then b else a.

(** [len(xs)] as a number, and [len(xs) / 2] (true division). *)
Definition len {X} (xs : list X) : Q := inject_Z (Z.of_nat (List.length xs)).

Definition rule : string := nl ++ "---" ++ nl.

(** ** The routine, block by block *)

Definition csv_path (w : World) : string := path_join (base w) "datos_sinteticos.csv".
Definition out_dir (w : World) : string := path_join (base w) "output".

(** Lines 23-31. *)
Definition dependency_guard (w : World) : Run unit :=
  try_except (imports w) (fun e =>
    print "Faltan dependencias necesarias para ejecutar el análisis." ;;
    print ("Instala las librerías con:" ++ nl
             ++ "    pip install pandas matplotlib seaborn") ;;
    print ("Error de importación: " ++ str_exn e) ;;
    return_).

(** Lines 38-53. *)
Definition loader (w : World) : Run (DataFrame cell) :=
  when (negb (path_exists w (csv_path w)))
       (print ("No se encontró el archivo: " ++ csv_path w) ;; return_) ;;
  print ("Cargando: " ++ csv_path w ++ nl) ;;
  try_except (pd_read_csv w (csv_path w) None) (fun e1 =>
    try_except (pd_read_csv w (csv_path w) (Some ";")) (fun e2 =>
      print "Error leyendo el CSV. Mostrar traceback:" ;;
      effect (PrintExc e2 e1) ;;
      return_)).

(** Lines 58-61. *)
Definition report_head (df : DataFrame cell) : Run unit :=
  print "Primeras 5 filas:" ;;
  print (to_string pd (head 5 df)) ;;
  print rule.

(** Lines 63-67. *)
Definition report_shape (df : DataFrame cell) : Run unit :=
  print ("Dimensiones (filas, columnas): " ++ repr_shape (shape df)) ;;
  print (nl ++ "Tipos de columnas:") ;;
  print (repr_dtypes pd (df_columns df)) ;;
  print rule.

(** Lines 69-72. *)
Definition report_nulls (df : DataFrame cell) : Run unit :=
  print "Valores nulos por columna:" ;;
  print (repr_counts pd (null_counts pd df)) ;;
  print rule.

(** Lines 74-77. *)
Definition report_describe_number (df : DataFrame cell) : Run unit :=
  print "Estadísticas descriptivas (numéricas):" ;;
  d <- call (describe is_number df) ;;
  print (repr_describe_T pd d) ;;
  print rule.

(** Lines 79-82. *)
Definition report_describe_object (df : DataFrame cell) : Run unit :=
  print "Estadísticas (no numéricas):" ;;
  d <- call (describe is_object_or_category df) ;;
  print (repr_describe pd d) ;;
  print rule.

(** Lines 84-89. *)
Definition report_duplicates (df : DataFrame cell) : Run unit :=
  print ("Filas duplicadas: " ++ str_nat (dup_count pd df)) ;;
  when (0 <? dup_count pd df)%nat
       (print "Ejemplo de filas duplicadas:" ;;
        print (to_string pd (head 5 (getitem_mask df (duplicated pd df))))).

(** Lines 91-97. *)
Definition report_value_counts (df : DataFrame cell) : Run unit :=
  match cat_cols df with
  | [] => ret tt
  | _ :: _ =>
      print (nl ++ "Conteos para columnas categóricas (primeras 10 categorías si existen):") ;;
      for_each (cat_cols df) (fun c =>
        print (nl ++ "Columna: " ++ c) ;;
        print (repr_value_counts pd (firstn 10 (value_counts pd (getitem df c)))))
  end.

(** Lines 58-97: the Summary Reporter. *)
Definition summary_reporter (df : DataFrame cell) : Run unit :=
  report_head df ;;
  report_shape df ;;
  report_nulls df ;;
  report_describe_number df ;;
  report_describe_object df ;;
  report_duplicates df ;;
  report_value_counts df.

Definition hist_file (out c : string) : string := path_join out ("hist_" ++ c ++ ".png").
Definition box_file (out c : string) : string := path_join out ("box_" ++ c ++ ".png").
Definition corr_file (out : string) : string := path_join out "correlation_matrix.png".

(** Lines 104-118: the body of the loop over the numeric columns. *)
Definition plot_column (out : string) (df : DataFrame cell) (c : string) : Run unit :=
  effect (Figure (8, 4)%Q) ;;
  attempt (histplot_error pd (dropna pd (getitem df c)))
          (Histplot (dropna pd (getitem df c)) true) ;;
  effect (Title ("Histograma: " ++ c)) ;;
  effect TightLayout ;;
  attempt (savefig_error pd (hist_file out c)) (Savefig (hist_file out c)) ;;
  effect Close ;;
  effect (Figure (6, 4)%Q) ;;
  attempt (boxplot_error pd (dropna pd (getitem df c)))
          (Boxplot (dropna pd (getitem df c))) ;;
  effect (Title ("Boxplot: " ++ c)) ;;
  effect TightLayout ;;
  attempt (savefig_error pd (box_file out c)) (Savefig (box_file out c)) ;;
  effect Close.

(** Lines 121-129. *)
Definition plot_correlation (out : string) (df : DataFrame cell) : Run unit :=
  when (1 <? List.length (num_cols df))%nat
       (print "Generando mapa de correlación (guardado en ./output/correlation_matrix.png)" ;;
        effect (Figure (py_max 6 (len (num_cols df)),
                        py_max 4 (len (num_cols df) / 2))%Q) ;;
        attempt (heatmap_error pd (getitem_columns df (num_cols df)))
                (Heatmap (Corr (getitem_columns df (num_cols df)))
                         true ".2f" "coolwarm" true) ;;
        effect (Title "Matriz de correlación") ;;
        effect TightLayout ;;
        attempt (savefig_error pd (corr_file out)) (Savefig (corr_file out)) ;;
        effect Close).

(** Lines 99-132: the Plot Renderer. *)
Definition plot_renderer (out : string) (df : DataFrame cell) : Run unit :=
  match num_cols df with
  | _ :: _ =>
      print (nl ++ "Generando histogramas y boxplots para columnas numéricas (guardados en ./output)") ;;
      for_each (num_cols df) (plot_column out df) ;;
      plot_correlation out df
  | [] =>
      print "No se detectaron columnas numéricas para graficar."
  end.

(** Lines 22-134. *)
Definition main (w : World) : Run unit :=
  dependency_guard w ;;
  effect (SnsSet "whitegrid") ;;
  df <- loader w ;;
  effect (Mkdir (out_dir w)) ;;
  summary_reporter df ;;
  plot_renderer (out_dir w) df ;;
  print (nl ++ "Análisis completado. Archivos de salida en: " ++ out_dir w).

(** ** Reading a run *)

Definition trace {A} (r : Run A) : list event := fst r.
Definition ending {A} (r : Run A) : outcome A := snd r.

(** The lines written to standard output. *)
Definition printed (t : list event) : list string :=
  flat_map (fun e => match e with Stdout s => [s] | _ => [] end) t.

(** The paths handed to [savefig], in order. *)
Definition saved (t : list event) : list string :=
  flat_map (fun e => match e with Savefig p => [p] | _ => [] end) t.

(** The separators of the [read_csv] attempts, in order. *)
Definition read_attempts (t : list event) : list (option string) :=
  flat_map (fun e => match e with ReadCsv _ sep => [sep] | _ => [] end) t.

(** Events that touch the file system below the output directory. *)
Definition writes (t : list event) : list event :=
  filter (fun e => match e with Mkdir _ | Savefig _ => true | _ => false end) t.


(** Events of the Summary Reporter: standard output only. *)
Definition is_print (e : event) : Prop :=
  match e with Stdout _ => True | _ => False end.

(** Events of the Plot Renderer: standard output and the plotting calls. *)
Definition is_rendering (e : event) : Prop :=
  match e with
  | ReadCsv _ _ | Mkdir _ | PrintExc _ _ | SnsSet _ => False
  | _ => True
  end.

(** The closing line. *)
Definition final_line (w : World) : string :=
  nl ++ "Análisis completado. Archivos de salida en: " ++ out_dir w.

(** The files of the per-column loop, in the order they are saved. *)
Definition column_files (out : string) (cs : list string) : list string :=
  flat_map (fun c => [hist_file out c; box_file out c]) cs.

(** The events of one turn of the loop when none of its calls raises. *)
Definition column_events (out : string) (df : DataFrame cell) (c : string)
  : list event :=
  [Figure (8, 4)%Q;
   Histplot (dropna pd (getitem df c)) true;
   Title ("Histograma: " ++ c);
   TightLayout;
   Savefig (hist_file out c);
   Close;
   Figure (6, 4)%Q;
   Boxplot (dropna pd (getitem df c));
   Title ("Boxplot: " ++ c);
   TightLayout;
   Savefig (box_file out c);
   Close].

(** Whether a block was left by an exception. *)
Definition raised {A} (o : outcome A) : bool :=
  match o with Raised _ => true | _ => false end.

(** The events of the correlation step when none of its calls raises. *)
Definition correlation_events (out : string) (df : DataFrame cell) : list event :=
  [Stdout "Generando mapa de correlación (guardado en ./output/correlation_matrix.png)";
   Figure (py_max 6 (len (num_cols df)), py_max 4 (len (num_cols df) / 2))%Q;
   Heatmap (Corr (getitem_columns df (num_cols df))) true ".2f" "coolwarm" true;
   Title "Matriz de correlación";
   TightLayout;
   Savefig (out ++ "/correlation_matrix.png");
   Close].

End Script.

Arguments Returned {A}.
Arguments Raised {A} _.
Arguments Normal {A} _.
Arguments Close {cell}.
Arguments TightLayout {cell}.
Arguments Stdout {cell} _.
Arguments PrintExc {cell} _ _.
Arguments SnsSet {cell} _.
Arguments ReadCsv {cell} _ _.
Arguments Mkdir {cell} _.
Arguments Figure {cell} _.
Arguments Title {cell} _.
Arguments Savefig {cell} _.
Arguments is_print {cell} _.
Arguments is_rendering {cell} _.

(** ** Observations on frames and runs

    Predicates used to state what a run does and does not do. *)

Section Observations.

Variable cell : Type.
Variable pd : Pandas cell.

(** A frame is rectangular when every row has one cell per column, as the
    frames answered by [read_csv] are. *)
Definition rectangular (df : DataFrame cell) : Prop :=
  Forall (fun r : row cell => List.length r = List.length (df_columns df)) (df_rows df).

(** The column labels of a frame. *)
Definition labels (df : DataFrame cell) : list string := map fst (df_columns df).

(** The current-figure state of matplotlib along a trace: [open] tells
    whether a figure made by [plt.figure] is waiting for its [plt.close].
    The answer is [None] when a figure is opened while another is open,
    when [close] has nothing to close, or when a drawing call, a title or
    [savefig] comes with no figure open. *)
Fixpoint figure_state (open : bool) (t : list (event cell)) : option bool :=
  match t with
  | [] => Some open
  | e :: t' =>
      match e with
      | Figure _ => if open then None else figure_state true t'
      | Close => if open then figure_state false t' else None
      | Histplot _ _ | Boxplot _ | Heatmap _ _ _ _ _
      | Title _ | TightLayout | Savefig _ =>
          if open then figure_state open t' else None
      | _ => figure_state open t'
      end
  end.

(** Events that leave the current figure alone. *)
Definition is_plain (e : event cell) : Prop :=
  match e with
  | Stdout _ | PrintExc _ _ | SnsSet _ | ReadCsv _ _ | Mkdir _ => True
  | _ => False
  end.

(** A drawing call that is handed no missing value. *)
Definition draws_present_values (e : event cell) : Prop :=
  match e with
  | Histplot data _ => Forall (fun v => isna pd v = false) data
  | Boxplot x => Forall (fun v => isna pd v = false) x
  | _ => True
  end.

(** A [read_csv] call, if it is one, reads [path]. *)
Definition reads_only (path : string) (e : event cell) : Prop :=
  match e with ReadCsv p _ => p = path | _ => True end.

(** Not the creation of a directory. *)
Definition is_not_mkdir (e : event cell) : Prop :=
  match e with Mkdir _ => False | _ => True end.

(** The calls of the Plot Renderer that can raise, in the order in which
    it makes them, each with the exception it raises, if any: for every
    numeric column [histplot], [savefig], [boxplot] and [savefig]; then,
    with two numeric columns or more, [heatmap] and [savefig]. *)
Definition column_calls (out : string) (df : DataFrame cell) (c : string)
  : list (option exn) :=
  [histplot_error pd (dropna pd (getitem df c));
   savefig_error pd (hist_file out c);
   boxplot_error pd (dropna pd (getitem df c));
   savefig_error pd (box_file out c)].

Definition plot_calls (out : string) (df : DataFrame cell) : list (option exn) :=
  (flat_map (column_calls out df) (num_cols df)
     ++ if (1 <? List.length (num_cols df))%nat
        then [heatmap_error pd (getitem_columns df (num_cols df));
              savefig_error pd (corr_file out)]
        else [])%list.

(** The first exception of a sequence of calls. *)
Fixpoint first_error (calls : list (option exn)) : option exn :=
  match calls with
  | [] => None
  | Some e :: _ => Some e
  | None :: rest => first_error rest
  end.

(** The lines of the categorical section for the given columns. *)
Definition value_count_lines (df : DataFrame cell) (cs : list string) : list string :=
  flat_map (fun c =>
    [nl ++ "Columna: " ++ c;
     repr_value_counts pd (firstn 10 (value_counts pd (getitem df c)))]) cs.

End Observations.

Arguments is_plain {cell} _.
Arguments is_not_mkdir {cell} _.
Arguments reads_only {cell} _ _.

(** ** A small concrete setting

    Cells are the raw text of the CSV fields, the empty field is the missing
    value, and the layout functions are simple stand-ins.  It serves to run
    the routine on concrete files. *)

Module Sample.

Definition cell : Type := string.

Fixpoint tally (seen : list (cell * nat)) (v : cell) : list (cell * nat) :=
  match seen with
  | [] => [(v, 1)]
  | (x, n) :: seen' => if String.eqb x v then (x, S n) :: seen' else (x, n) :: tally seen' v
  end.

(** Does the text hold a [/]? *)
Fixpoint has_slash (s : string) : bool :=
  match s with
  | EmptyString => false
  | String a s' => Ascii.eqb a "/" || has_slash s'
  end.

(** [savefig] in a directory [output] that holds no directory: a name with
    a [/] after [/output/] points into a directory that does not exist. *)
Definition refuses_subdirectory (path : string) : option exn :=
  match String.index 0 "/output/" path with
  | Some n =>
      if has_slash (String.substring (n + 8) (String.length path) path)
      then Some (Exn "FileNotFoundError" ("No such file or directory: " ++ path))
      else None
  | None => None
  end.

Definition show_counts (l : list (string * nat)) : string :=
  String.concat nl (map (fun p => fst p ++ " " ++ str_nat (snd p)) l).

Definition show_frame (df : DataFrame cell) : string :=
  String.concat nl
    (String.concat " " (map fst (df_columns df))
       :: map (String.concat " ") (df_rows df)).

Definition pd : Pandas cell := {|
  cell_eq_dec := string_dec;
  isna := fun v => String.eqb v EmptyString;
  value_counts := fun vs => fold_left tally vs [];
  to_string := show_frame;
  repr_dtypes := fun cols =>
    String.concat nl (map (fun c => fst c ++ " " ++ str_dtype (snd c)) cols);
  repr_counts := show_counts;
  repr_describe_T := fun d => "describe.T " ++ String.concat " " (map fst (df_columns d));
  repr_describe := fun d => "describe " ++ String.concat " " (map fst (df_columns d));
  repr_value_counts := show_counts;
  histplot_error := fun _ => None;
  boxplot_error := fun _ => None;
  heatmap_error := fun _ => None;
  savefig_error := refuses_subdirectory
|}.

Definition ParserError : exn := Exn "ParserError" "Error tokenizing data".

(** A world where the dependencies import and the only existing path is the
    CSV next to the script, which [read_csv] answers as given. *)
Definition world (answer : option string -> exn + DataFrame cell) : World cell := {|
  import_error := None;
  base := "/srv/eda";
  path_exists := fun p => String.eqb p "/srv/eda/datos_sinteticos.csv";
  read_csv := fun _ sep => answer sep
|}.

(** [age,city] with three rows, the last repeating the first. *)
Definition people : DataFrame cell :=
  Frame [("age", int64); ("city", object_)]
        [["31"; "Cali"]; ["45"; "Tunja"]; ["31"; "Cali"]].

(** A file with one text column. *)
Definition cities : DataFrame cell :=
  Frame [("city", object_)] [["Cali"]; ["Tunja"]].

(** A file with numeric columns only. *)
Definition measures : DataFrame cell :=
  Frame [("alto", float64); ("ancho", float64); ("peso", int64)]
        [["1.5"; "2.0"; "7"]; ["1.7"; "2.5"; "9"]].

(** Two numeric columns and a text column. *)
Definition survey : DataFrame cell :=
  Frame [("age", int64); ("income", float64); ("city", object_)]
        [["31"; "1200.5"; "Cali"]; ["45"; "980.0"; "Tunja"];
         ["31"; "1200.5"; "Cali"]; ["28"; EmptyString; "Cali"]].

(** A numeric column whose name holds a [/], and a text column. *)
Definition trips : DataFrame cell :=
  Frame [("km/h", float64); ("km", float64); ("city", object_)]
        [["40.5"; "12"; "Cali"]; ["62.0"; "30"; "Tunja"]].

(** Nine numeric columns and no row. *)
Definition wide : DataFrame cell :=
  Frame [("a", float64); ("b", float64); ("c", float64); ("d", float64);
         ("e", float64); ("f", float64); ("g", float64); ("h", float64);
         ("i", int64)] [].

(** The output directory of these worlds. *)
Definition output : string := "/srv/eda/output".

Definition w_people : World cell := world (fun _ => inr people).
Definition w_survey : World cell := world (fun _ => inr survey).
Definition w_trips : World cell := world (fun _ => inr trips).
Definition w_cities : World cell := world (fun _ => inr cities).
Definition w_measures : World cell := world (fun _ => inr measures).

(** The file parses with [;] only. *)
Definition w_semicolon : World cell :=
  world (fun sep => match sep with None => inl ParserError | Some _ => inr people end).

(** The file parses with neither separator. *)
Definition w_unparseable : World cell := world (fun _ => inl ParserError).

(** No CSV next to the script. *)
Definition w_missing : World cell := {|
  import_error := None;
  base := "/srv/eda";
  path_exists := fun _ => false;
  read_csv := fun _ _ => inl (Exn "FileNotFoundError" "No such file or directory")
|}.

(** pandas is not installed, and there is no CSV either. *)
Definition w_bare : World cell := {|
  import_error := Some (Exn "ModuleNotFoundError" "No module named 'pandas'");
  base := "/srv/eda";
  path_exists := fun _ => false;
  read_csv := fun _ _ => inl (Exn "FileNotFoundError" "No such file or directory")
|}.

(** The same script and the same CSV as [w_people], copied elsewhere. *)
Definition w_people_copy : World cell := {|
  import_error := None;
  base := "/home/ana/copia";
  path_exists := fun p => String.eqb p "/home/ana/copia/datos_sinteticos.csv";
  read_csv := fun _ _ => inr people
|}.

End Sample.

(** * Properties *)

(** ** File names *)

Lemma append_length (s t : string) :
  String.length (s ++ t) = String.length s + String.length t.
Proof. induction s as [|c s IH]; simpl; auto. Qed.

Lemma append_inv_head (s a b : string) : s ++ a = s ++ b -> a = b.
Proof.
  induction s as [|c s IH]; simpl; trivial.
  intros [= H]; auto.
Qed.

Lemma append_inv_tail (t a b : string) : a ++ t = b ++ t -> a = b.
Proof.
  revert b; induction a as [|c a IH]; intros [|d b] H; simpl in *; trivial.
  - apply (f_equal String.length) in H; simpl in H.
    rewrite append_length in H; lia.
  - apply (f_equal String.length) in H; simpl in H.
    rewrite append_length in H; lia.
  - injection H as -> H; f_equal; auto.
Qed.

Lemma hist_file_inj (out c1 c2 : string) :
  hist_file out c1 = hist_file out c2 -> c1 = c2.
Proof.
  unfold hist_file, path_join; intros H.
  do 3 apply append_inv_head in H.
  now apply append_inv_tail in H.
Qed.

Lemma box_file_inj (out c1 c2 : string) :
  box_file out c1 = box_file out c2 -> c1 = c2.
Proof.
  unfold box_file, path_join; intros H.
  do 3 apply append_inv_head in H.
  now apply append_inv_tail in H.
Qed.

Lemma hist_file_not_box_file (out c1 c2 : string) :
  hist_file out c1 <> box_file out c2.
Proof.
  unfold hist_file, box_file, path_join; intros H.
  do 2 apply append_inv_head in H; simpl in H; discriminate.
Qed.

Lemma corr_file_not_hist_file (out c : string) : corr_file out <> hist_file out c.
Proof.
  unfold hist_file, corr_file, path_join; intros H.
  do 2 apply append_inv_head in H; simpl in H; discriminate.
Qed.

Lemma corr_file_not_box_file (out c : string) : corr_file out <> box_file out c.
Proof.
  unfold box_file, corr_file, path_join; intros H.
  do 2 apply append_inv_head in H; simpl in H; discriminate.
Qed.


Lemma column_files_length (out : string) (cs : list string) :
  List.length (column_files out cs) = 2 * List.length cs.
Proof. induction cs as [|c cs IH]; simpl; lia. Qed.

Lemma column_files_In (out : string) (cs : list string) (f : string) :
  In f (column_files out cs) ->
  exists c, In c cs /\ (f = hist_file out c \/ f = box_file out c).
Proof.
  unfold column_files; rewrite in_flat_map.
  intros (c & Hc & [<- | [<- | []]]); exists c; auto.
Qed.

Lemma column_files_NoDup (out : string) (cs : list string) :
  NoDup cs -> NoDup (column_files out cs).
Proof.
  induction 1 as [|c cs Hc Hcs IH]; simpl; [constructor|].
  constructor; [|constructor; trivial].
  - intros [H | H].
    + symmetry in H; now apply hist_file_not_box_file in H.
    + apply column_files_In in H as (c' & Hc' & [H | H]).
      * apply hist_file_inj in H; now subst.
      * now apply hist_file_not_box_file in H.
  - intros H; apply column_files_In in H as (c' & Hc' & [H | H]).
    + symmetry in H; now apply hist_file_not_box_file in H.
    + apply box_file_inj in H; now subst.
Qed.

Lemma corr_file_not_column_file (out : string) (cs : list string) :
  ~ In (corr_file out) (column_files out cs).
Proof.
  intros H; apply column_files_In in H as (c & _ & [H | H]).
  - now apply corr_file_not_hist_file in H.
  - now apply corr_file_not_box_file in H.
Qed.

(** ** Two-argument [max] *)

Lemma py_max_ge_first (a b : Q) : (a <= py_max a b)%Q.
Proof.
  unfold py_max; destruct (Qlt_le_dec a b).
  - now apply Qlt_le_weak.
  - apply Qle_refl.
Qed.

Lemma py_max_ge_second (a b : Q) : (b <= py_max a b)%Q.
Proof.
  unfold py_max; destruct (Qlt_le_dec a b); trivial.
  apply Qle_refl.
Qed.

Lemma py_max_is_one_of (a b : Q) : py_max a b = a \/ py_max a b = b.
Proof. unfold py_max; destruct (Qlt_le_dec a b); auto. Qed.

(** ** Column selection *)

Section Selection.

Variable cell : Type.

Lemma take_positions (p : string * dtype -> bool)
    (before cols : list (string * dtype)) :
  flat_map (fun i => match nth_error (before ++ cols) i with
                     | Some c => [c] | None => [] end)
           (positions_from (List.length before) p cols)
  = filter p cols.
Proof.
  revert before; induction cols as [|c cols IH]; intros before; simpl; trivial.
  assert (E : (before ++ c :: cols = (before ++ [c]) ++ cols)%list)
    by now rewrite <- app_assoc.
  assert (L : S (List.length before) = List.length (before ++ [c])%list)
    by (rewrite length_app; simpl; lia).
  destruct (p c); simpl.
  - rewrite nth_error_app2, Nat.sub_diag by lia; simpl.
    f_equal. rewrite E, L. apply IH.
  - rewrite E, L. apply IH.
Qed.

Lemma select_dtypes_columns (include : dtype -> bool) (df : DataFrame cell) :
  df_columns (select_dtypes include df) =
  filter (fun c => include (snd c)) (df_columns df).
Proof.
  unfold select_dtypes, take_columns, positions; cbn [df_columns].
  exact (take_positions _ [] (df_columns df)).
Qed.

(** The numeric columns are the columns of numeric type, in column order. *)
Lemma num_cols_in_column_order (df : DataFrame cell) :
  num_cols df = map fst (filter (fun c => is_number (snd c)) (df_columns df)).
Proof. unfold num_cols; now rewrite select_dtypes_columns. Qed.

Lemma is_cat_dtype_object_or_category (d : dtype) :
  is_cat_dtype d = is_object_or_category d.
Proof. now destruct d. Qed.

(** The text columns of line 92 are the ones [describe] selects with
    [include=['object', 'category']]. *)
Lemma cat_cols_selected (df : DataFrame cell) :
  cat_cols df = map fst (df_columns (select_dtypes is_object_or_category df)).
Proof.
  unfold cat_cols; rewrite select_dtypes_columns.
  f_equal; apply filter_ext; intros c; apply is_cat_dtype_object_or_category.
Qed.

Lemma positions_first (p : string * dtype -> bool)
    (cols : list (string * dtype)) (k : nat) :
  (exists c, In c cols /\ p c = true) ->
  exists i c, firstn 1 (positions_from k p cols) = [k + i]
              /\ nth_error cols i = Some c /\ p c = true.
Proof.
  revert k; induction cols as [|c0 cols IH]; intros k (c & Hin & Hp).
  - destruct Hin.
  - cbn [positions_from]; destruct (p c0) eqn:E.
    + exists 0, c0; rewrite Nat.add_0_r; auto.
    + destruct Hin as [-> | Hin]; [congruence|].
      destruct (IH (S k)) as (i & c' & Hi & Hn & Hp'); [eauto|].
      exists (S i), c'; rewrite Hi, Nat.add_succ_r; auto.
Qed.

(** [df[names]] has the labels asked for, in the order asked. *)
Lemma getitem_columns_labels (df : DataFrame cell) (names : list string) :
  incl names (map fst (df_columns df)) ->
  map fst (df_columns (getitem_columns df names)) = names.
Proof.
  unfold getitem_columns, take_columns, positions; cbn [df_columns].
  induction names as [|n names IH]; intros Hincl; trivial.
  apply incl_cons_inv in Hincl as [Hn Hincl].
  apply in_map_iff in Hn as (c & Hc & Hin).
  destruct (positions_first (fun c => String.eqb (fst c) n) (df_columns df) 0)
    as (i & c' & Hi & Hnth & Hp).
  { exists c; split; trivial; now apply String.eqb_eq. }
  cbn [flat_map]; rewrite Hi, flat_map_app, map_app, (IH Hincl).
  cbn [flat_map Nat.add]; rewrite Hnth; simpl.
  apply String.eqb_eq in Hp; now rewrite Hp.
Qed.

Lemma num_cols_are_labels (df : DataFrame cell) :
  incl (num_cols df) (map fst (df_columns df)).
Proof.
  rewrite num_cols_in_column_order; intros n Hn.
  apply in_map_iff in Hn as (c & <- & Hc).
  apply filter_In in Hc as [Hc _]; now apply in_map.
Qed.

(** [describe] answers exactly when the selection is not empty. *)
Lemma describe_answers (include : dtype -> bool) (df : DataFrame cell) :
  df_columns (select_dtypes include df) <> [] ->
  describe include df = inr (select_dtypes include df).
Proof.
  intros Hsel; unfold describe.
  destruct (df_columns df) as [|c cols] eqn:E.
  - exfalso; apply Hsel; rewrite select_dtypes_columns, E; reflexivity.
  - destruct (df_columns (select_dtypes include df)); [contradiction | reflexivity].
Qed.

Lemma describe_raises (include : dtype -> bool) (df : DataFrame cell) :
  df_columns (select_dtypes include df) = [] ->
  exists msg, describe include df = inl (ValueError msg).
Proof.
  intros Hsel; unfold describe.
  destruct (df_columns df); [eauto|].
  rewrite Hsel; eauto.
Qed.

End Selection.

Section Facts.

Variable cell : Type.
Variable pd : Pandas cell.


(** ** Traces of composed blocks *)

Lemma bind_normal {A B} (m : Run cell A) (k : A -> Run cell B) (a : A) :
  ending m = Normal a ->
  bind m k = ((trace m ++ trace (k a))%list, ending (k a)).
Proof.
  destruct m as [t o]; simpl; intros ->; simpl.
  now destruct (k a).
Qed.

Lemma bind_returned {A B} (m : Run cell A) (k : A -> Run cell B) :
  ending m = Returned -> bind m k = (trace m, Returned).
Proof. destruct m as [t o]; simpl; now intros ->. Qed.

Lemma bind_raised {A B} (m : Run cell A) (k : A -> Run cell B) (e : exn) :
  ending m = Raised e -> bind m k = (trace m, Raised e).
Proof. destruct m as [t o]; simpl; now intros ->. Qed.

Lemma trace_bind_Forall {A B} (P : event cell -> Prop) (m : Run cell A) (k : A -> Run cell B) :
  Forall P (trace m) ->
  (forall a, Forall P (trace (k a))) ->
  Forall P (trace (bind m k)).
Proof.
  intros Hm Hk; destruct m as [t [a| |e]]; simpl in *; trivial.
  specialize (Hk a); destruct (k a) as [t' o']; simpl in *.
  now apply Forall_app.
Qed.

Lemma trace_for_each_Forall {X} (P : event cell -> Prop) (xs : list X) (body : X -> Run cell unit) :
  (forall x, Forall P (trace (body x))) ->
  Forall P (trace (for_each xs body)).
Proof.
  intros Hb; induction xs as [|x xs IH]; simpl.
  - constructor.
  - apply trace_bind_Forall; auto.
Qed.

Lemma ending_for_each {X} (xs : list X) (body : X -> Run cell unit) :
  (forall x, ending (body x) = Normal tt) ->
  ending (for_each xs body) = Normal tt.
Proof.
  intros Hb; induction xs as [|x xs IH]; simpl; trivial.
  rewrite (bind_normal _ _ (Hb x)); simpl; exact IH.
Qed.

(** The events of a list that a projection keeps, when none qualifies. *)
Lemma flat_map_nil_Forall {X Y} (f : X -> list Y) (l : list X) :
  Forall (fun x => f x = []) l -> flat_map f l = [].
Proof.
  induction 1 as [|x l Hx _ IH]; simpl; trivial.
  now rewrite Hx, IH.
Qed.

(** ** What each block may do *)



Ltac block_events :=
  repeat first
    [ apply trace_bind_Forall; [ | intros ? ]
    | apply trace_for_each_Forall; intros ?
    | progress (unfold print, effect, when, call, ret, raise, attempt; simpl)
    | match goal with |- context [if ?b then _ else _] => destruct b end
    | match goal with |- context [match ?x with inl _ => _ | inr _ => _ end] => destruct x end
    | match goal with |- context [match ?x with Some _ => _ | None => _ end] => destruct x end
    | match goal with |- Forall _ (_ :: _) => constructor end
    | match goal with |- Forall _ [] => constructor end
    | exact I ].

Lemma summary_reporter_only_prints (df : DataFrame cell) :
  Forall is_print (trace (summary_reporter pd df)).
Proof.
  unfold summary_reporter, report_head, report_shape, report_nulls,
    report_describe_number, report_describe_object, report_duplicates,
    report_value_counts.
  destruct (cat_cols df); block_events.
Qed.

Lemma plot_renderer_only_renders (out : string) (df : DataFrame cell) :
  Forall is_rendering (trace (plot_renderer pd out df)).
Proof.
  unfold plot_renderer, plot_correlation, plot_column.
  destruct (num_cols df); block_events.
Qed.

Lemma is_print_is_rendering (t : list (event cell)) :
  Forall is_print t -> Forall is_rendering t.
Proof.
  apply Forall_impl; intros [] H; simpl in *; tauto.
Qed.

Lemma rendering_reads_nothing (t : list (event cell)) :
  Forall is_rendering t -> read_attempts t = [].
Proof.
  intros H; apply flat_map_nil_Forall; revert H.
  apply Forall_impl; intros [] H; simpl in *; tauto.
Qed.

Lemma prints_save_nothing (t : list (event cell)) :
  Forall is_print t -> saved t = [] /\ writes t = [].
Proof.
  induction 1 as [|e t He _ [IH1 IH2]]; simpl; auto.
  destruct e; simpl in He; try contradiction.
  unfold saved, writes in *; simpl; auto.
Qed.

(** ** Endings *)

Lemma report_duplicates_completes (df : DataFrame cell) :
  ending (report_duplicates pd df) = Normal tt.
Proof.
  unfold report_duplicates, when; simpl.
  now destruct (0 <? _)%nat.
Qed.

Lemma report_value_counts_completes (df : DataFrame cell) :
  ending (report_value_counts pd df) = Normal tt.
Proof.
  unfold report_value_counts.
  destruct (cat_cols df); trivial.
  rewrite bind_normal with (a := tt) by reflexivity.
  apply ending_for_each; intros; reflexivity.
Qed.

Lemma report_describe_number_ending (df : DataFrame cell) :
  ending (report_describe_number pd df) =
  match describe is_number df with inl e => Raised e | inr _ => Normal tt end.
Proof.
  unfold report_describe_number.
  now destruct (describe is_number df).
Qed.

Lemma report_describe_object_ending (df : DataFrame cell) :
  ending (report_describe_object pd df) =
  match describe is_object_or_category df with
  | inl e => Raised e
  | inr _ => Normal tt
  end.
Proof.
  unfold report_describe_object.
  now destruct (describe is_object_or_category df).
Qed.

(** The Summary Reporter ends the way the two [describe] calls let it. *)
Lemma summary_reporter_ending (df : DataFrame cell) :
  ending (summary_reporter pd df) =
  match describe is_number df, describe is_object_or_category df with
  | inl e, _ => Raised e
  | inr _, inl e => Raised e
  | inr _, inr _ => Normal tt
  end.
Proof.
  unfold summary_reporter.
  rewrite bind_normal with (a := tt) by reflexivity.
  rewrite bind_normal with (a := tt) by reflexivity.
  rewrite bind_normal with (a := tt) by reflexivity.
  pose proof (report_describe_number_ending df) as Hn.
  pose proof (report_describe_object_ending df) as Ho.
  destruct (describe is_number df) as [e|d].
  { now rewrite (bind_raised _ _ Hn). }
  rewrite (bind_normal _ _ Hn).
  destruct (describe is_object_or_category df) as [e|d'].
  { now rewrite (bind_raised _ _ Ho). }
  rewrite (bind_normal _ _ Ho).
  rewrite bind_normal with (a := tt) by apply report_duplicates_completes.
  apply report_value_counts_completes.
Qed.

(** ** The routine as a whole *)


Lemma dependency_guard_passes (w : World cell) :
  import_error w = None -> dependency_guard w = ([], Normal tt).
Proof. unfold dependency_guard, imports; now intros ->. Qed.

(** What the Loader does, case by case. *)
Lemma loader_missing (w : World cell) :
  path_exists w (csv_path w) = false ->
  loader w = ([Stdout ("No se encontró el archivo: " ++ csv_path w)], Returned).
Proof. unfold loader; now intros ->. Qed.

Lemma loader_comma (w : World cell) (df : DataFrame cell) :
  path_exists w (csv_path w) = true ->
  read_csv w (csv_path w) None = inr df ->
  loader w = ([Stdout ("Cargando: " ++ csv_path w ++ nl);
               ReadCsv (csv_path w) None], Normal df).
Proof. unfold loader, pd_read_csv; now intros -> ->. Qed.

Lemma loader_semicolon (w : World cell) (e1 : exn) (df : DataFrame cell) :
  path_exists w (csv_path w) = true ->
  read_csv w (csv_path w) None = inl e1 ->
  read_csv w (csv_path w) (Some ";") = inr df ->
  loader w = ([Stdout ("Cargando: " ++ csv_path w ++ nl);
               ReadCsv (csv_path w) None;
               ReadCsv (csv_path w) (Some ";")], Normal df).
Proof. unfold loader, pd_read_csv; now intros -> -> ->. Qed.

Lemma loader_gives_up (w : World cell) (e1 e2 : exn) :
  path_exists w (csv_path w) = true ->
  read_csv w (csv_path w) None = inl e1 ->
  read_csv w (csv_path w) (Some ";") = inl e2 ->
  loader w = ([Stdout ("Cargando: " ++ csv_path w ++ nl);
               ReadCsv (csv_path w) None;
               ReadCsv (csv_path w) (Some ";");
               Stdout "Error leyendo el CSV. Mostrar traceback:";
               PrintExc e2 e1], Returned).
Proof. unfold loader, pd_read_csv; now intros -> -> ->. Qed.

(** A run that gets past the Loader: the events of the Loader, the creation
    of the output directory, the Summary Reporter and, when that one runs to
    its end, the Plot Renderer and, when that one runs to its end too, the
    closing line. *)
Lemma main_after_load (w : World cell) (df : DataFrame cell) :
  import_error w = None ->
  ending (loader w) = Normal df ->
  main pd w =
    ((SnsSet "whitegrid" :: trace (loader w)
        ++ Mkdir (out_dir w) :: trace (summary_reporter pd df)
        ++ match ending (summary_reporter pd df) with
           | Normal _ =>
               trace (plot_renderer pd (out_dir w) df)
                 ++ match ending (plot_renderer pd (out_dir w) df) with
                    | Normal _ => [Stdout (final_line w)]
                    | _ => []
                    end
           | _ => []
           end)%list,
     match ending (summary_reporter pd df) with
     | Normal _ =>
         match ending (plot_renderer pd (out_dir w) df) with
         | Normal _ => Normal tt
         | Returned => Returned
         | Raised e => Raised e
         end
     | Returned => Returned
     | Raised e => Raised e
     end).
Proof.
  intros Himp Hload; unfold main.
  rewrite (dependency_guard_passes _ Himp).
  rewrite bind_normal with (a := tt) by reflexivity.
  rewrite bind_normal with (a := tt) by reflexivity.
  rewrite (bind_normal _ _ Hload).
  rewrite bind_normal with (a := tt) by reflexivity.
  destruct (summary_reporter pd df) as [ts [[]| |e]] eqn:Es; simpl.
  - destruct (plot_renderer pd (out_dir w) df) as [tp [[]| |e]]; simpl;
      rewrite ?app_nil_r; reflexivity.
  - now rewrite app_nil_r.
  - now rewrite app_nil_r.
Qed.

(** What follows the creation of the directory is printing and plotting. *)
Lemma run_tail_is_rendering (w : World cell) (df : DataFrame cell) :
  Forall is_rendering
    (trace (summary_reporter pd df)
       ++ match ending (summary_reporter pd df) with
          | Normal _ =>
              trace (plot_renderer pd (out_dir w) df)
                ++ match ending (plot_renderer pd (out_dir w) df) with
                   | Normal _ => [Stdout (final_line w)]
                   | _ => []
                   end
          | _ => []
          end).
Proof.
  apply Forall_app; split.
  - apply is_print_is_rendering, summary_reporter_only_prints.
  - destruct (ending (summary_reporter pd df)); try constructor.
    apply Forall_app; split; [apply plot_renderer_only_renders|].
    destruct (ending (plot_renderer pd (out_dir w) df)); repeat constructor.
Qed.

(** A run that stops in the Loader. *)
Lemma main_stops_in_loader (w : World cell) :
  import_error w = None ->
  ending (loader w) = Returned ->
  main pd w = (SnsSet "whitegrid" :: trace (loader w), Returned).
Proof.
  intros Himp Hload; unfold main.
  rewrite (dependency_guard_passes _ Himp).
  rewrite bind_normal with (a := tt) by reflexivity.
  rewrite bind_normal with (a := tt) by reflexivity.
  now rewrite (bind_returned _ _ Hload).
Qed.

(** A run without the dependencies. *)
Lemma main_without_dependencies (w : World cell) (e : exn) :
  import_error w = Some e ->
  main pd w =
    ([Stdout "Faltan dependencias necesarias para ejecutar el análisis.";
      Stdout ("Instala las librerías con:" ++ nl
               ++ "    pip install pandas matplotlib seaborn");
      Stdout ("Error de importación: " ++ str_exn e)], Returned).
Proof.
  intros Himp; unfold main, dependency_guard, imports; now rewrite Himp.
Qed.

(** ** The Loader *)

(** C1.  When the dependencies import, the CSV exists and parsing with the
    default separator raises, [read_csv] is called exactly once more, with
    [sep=';'], whatever the second call answers.  When the second call
    raises too, the run is: the two attempts, the message, the traceback of
    the second exception in the context of the first, and [return]; the
    output directory is not created and no summary or plotting step runs. *)
Theorem loader_retries_once_then_gives_up (w : World cell) (e1 : exn) :
  import_error w = None ->
  path_exists w (csv_path w) = true ->
  read_csv w (csv_path w) None = inl e1 ->
  read_attempts (trace (main pd w)) = [None; Some ";"] /\
  (forall e2, read_csv w (csv_path w) (Some ";") = inl e2 ->
     main pd w =
       ([SnsSet "whitegrid";
         Stdout ("Cargando: " ++ csv_path w ++ nl);
         ReadCsv (csv_path w) None;
         ReadCsv (csv_path w) (Some ";");
         Stdout "Error leyendo el CSV. Mostrar traceback:";
         PrintExc e2 e1], Returned)).
Proof.
  intros Himp Hex H1; split.
  - destruct (read_csv w (csv_path w) (Some ";")) as [e2|df] eqn:H2.
    + pose proof (loader_gives_up w Hex H1 H2) as Hl.
      rewrite main_stops_in_loader by (trivial; now rewrite Hl).
      now rewrite Hl.
    + pose proof (loader_semicolon w Hex H1 H2) as Hl.
      rewrite (main_after_load w (df := df)) by (trivial; now rewrite Hl).
      rewrite Hl; unfold read_attempts; simpl.
      do 2 f_equal.
      apply rendering_reads_nothing, run_tail_is_rendering.
  - intros e2 H2.
    pose proof (loader_gives_up w Hex H1 H2) as Hl.
    rewrite main_stops_in_loader by (trivial; now rewrite Hl).
    now rewrite Hl.
Qed.

(** C5.  When the CSV does not exist, the Loader prints the message with the
    path and returns; the run ends by [return] with no directory created
    and no file saved, with or without the dependencies; and when the
    dependencies import the whole run is [sns.set] followed by that
    message. *)
Theorem missing_file_is_reported_before_any_output (w : World cell) :
  path_exists w (csv_path w) = false ->
  loader w = ([Stdout ("No se encontró el archivo: " ++ csv_path w)], Returned) /\
  ending (main pd w) = Returned /\
  writes (trace (main pd w)) = [] /\
  (import_error w = None ->
   main pd w =
     ([SnsSet "whitegrid";
       Stdout ("No se encontró el archivo: " ++ csv_path w)], Returned)).
Proof.
  intros Hex; pose proof (loader_missing w Hex) as Hl.
  assert (Hrun : import_error w = None ->
                 main pd w = ([SnsSet "whitegrid";
                   Stdout ("No se encontró el archivo: " ++ csv_path w)], Returned)).
  { intros Himp. rewrite main_stops_in_loader by (trivial; now rewrite Hl).
    now rewrite Hl. }
  split; [exact Hl|].
  destruct (import_error w) as [e|] eqn:Himp.
  - rewrite (main_without_dependencies w Himp).
    repeat split; discriminate.
  - rewrite (Hrun eq_refl).
    repeat split.
Qed.

(** ** The shape line *)

Lemma summary_reporter_starts (df : DataFrame cell) :
  exists rest,
    trace (summary_reporter pd df) =
      (Stdout "Primeras 5 filas:"
         :: Stdout (to_string pd (head 5 df))
         :: Stdout rule
         :: Stdout ("Dimensiones (filas, columnas): " ++ repr_shape (shape df))
         :: rest)%list.
Proof.
  unfold summary_reporter.
  rewrite bind_normal with (a := tt) by reflexivity.
  rewrite bind_normal with (a := tt) by reflexivity.
  eexists; reflexivity.
Qed.

(** C6.  When the dependencies import and the CSV at the expected path
    parses with the default separator into [N] rows and [M] columns, the
    fifth line the run prints (after the loading line, the heading of the
    first rows, the rows and the rule) is the shape line with the pair
    [(N, M)]. *)
Theorem shape_line_is_rows_and_columns
    (w : World cell) (df : DataFrame cell) (N M : nat) :
  import_error w = None ->
  path_exists w (csv_path w) = true ->
  read_csv w (csv_path w) None = inr df ->
  List.length (df_rows df) = N ->
  List.length (df_columns df) = M ->
  nth_error (printed (trace (main pd w))) 4 =
    Some ("Dimensiones (filas, columnas): ("
            ++ str_nat N ++ ", " ++ str_nat M ++ ")").
Proof.
  intros Himp Hex Hread HN HM.
  pose proof (loader_comma w Hex Hread) as Hl.
  rewrite (main_after_load w (df := df)) by (trivial; now rewrite Hl).
  rewrite Hl.
  destruct (summary_reporter_starts df) as [rest ->].
  unfold repr_shape, shape; simpl.
  now rewrite HN, HM.
Qed.

(** ** The ending of the Loader *)

Lemma loader_ending (w : World cell) :
  ending (loader w) =
  if path_exists w (csv_path w) then
    match read_csv w (csv_path w) None with
    | inr df => Normal df
    | inl _ =>
        match read_csv w (csv_path w) (Some ";") with
        | inr df => Normal df
        | inl _ => Returned
        end
    end
  else Returned.
Proof.
  unfold loader, pd_read_csv, when.
  destruct (path_exists w (csv_path w)); [|reflexivity].
  destruct (read_csv w (csv_path w) None); [|reflexivity].
  destruct (read_csv w (csv_path w) (Some ";")); reflexivity.
Qed.

Lemma printed_app (t1 t2 : list (event cell)) :
  printed (t1 ++ t2) = (printed t1 ++ printed t2)%list.
Proof. apply flat_map_app. Qed.

(** ** Runs that go through every block *)

Lemma summary_reporter_completes_both (df : DataFrame cell) :
  num_cols df <> [] -> cat_cols df <> [] ->
  ending (summary_reporter pd df) = Normal tt.
Proof.
  intros Hn Hc; rewrite summary_reporter_ending.
  rewrite !describe_answers; trivial.
  - intros E; apply Hc; rewrite cat_cols_selected; now rewrite E.
  - intros E; apply Hn; unfold num_cols; now rewrite E.
Qed.

(** The Summary Reporter that runs to its end: its blocks one after the
    other. *)
Lemma summary_reporter_trace (df : DataFrame cell) :
  num_cols df <> [] -> cat_cols df <> [] ->
  trace (summary_reporter pd df) =
    (trace (report_head pd df) ++ trace (report_shape pd df)
       ++ trace (report_nulls pd df)
       ++ trace (report_describe_number pd df)
       ++ trace (report_describe_object pd df)
       ++ trace (report_duplicates pd df)
       ++ trace (report_value_counts pd df))%list.
Proof.
  intros Hn Hc; unfold summary_reporter.
  pose proof (report_describe_number_ending df) as En.
  pose proof (report_describe_object_ending df) as Eo.
  rewrite describe_answers in En
    by (intros E; apply Hn; unfold num_cols; now rewrite E).
  rewrite describe_answers in Eo
    by (intros E; apply Hc; rewrite cat_cols_selected; now rewrite E).
  rewrite bind_normal with (a := tt) by reflexivity.
  rewrite bind_normal with (a := tt) by reflexivity.
  rewrite bind_normal with (a := tt) by reflexivity.
  rewrite (bind_normal _ _ En), (bind_normal _ _ Eo).
  rewrite bind_normal with (a := tt) by apply report_duplicates_completes.
  reflexivity.
Qed.

(** ** Duplicate rows *)

Lemma duplicated_from_length (seen rs : list (row cell)) :
  List.length (duplicated_from pd seen rs) = List.length rs.
Proof.
  revert seen; induction rs as [|r rs IH]; intros seen; simpl; auto.
Qed.

(** The flagged rows are as many as the [True] entries of the mask. *)
Lemma sum_mask_duplicated_from (seen rs : list (row cell)) :
  sum_mask (duplicated_from pd seen rs) =
  List.length (mask_rows rs (duplicated_from pd seen rs)).
Proof.
  revert seen; induction rs as [|r rs IH]; intros seen; simpl; trivial.
  unfold sum_mask in *; simpl.
  destruct (in_dec _ r seen); simpl; now rewrite IH.
Qed.

(** A row is flagged when it was seen before the scan started or occurs
    earlier in the scanned rows. *)
Lemma flagged_iff (seen rs : list (row cell)) (i : nat) :
  nth_error (duplicated_from pd seen rs) i = Some true <->
  exists r, nth_error rs i = Some r /\
            (In r seen \/ exists j, j < i /\ nth_error rs j = Some r).
Proof.
  revert seen i; induction rs as [|r0 rs IH]; intros seen i.
  - destruct i; simpl; split; [discriminate| |discriminate|];
      intros (r & H & _); discriminate.
  - destruct i as [|i]; simpl.
    + destruct (in_dec _ r0 seen) as [Hin|Hout]; split.
      * intros _; exists r0; auto.
      * trivial.
      * discriminate.
      * intros (r & [= <-] & [H | (j & Hj & _)]); [contradiction | lia].
    + rewrite IH; split.
      * intros (r & Hr & [[E | Hin] | (j & Hj & Hrj)]); exists r; split; trivial.
        -- right; exists 0; split; [lia | simpl; now rewrite E].
        -- now left.
        -- right; exists (S j); split; [lia | exact Hrj].
      * intros (r & Hr & [Hin | (j & Hj & Hrj)]); exists r; split; trivial.
        -- left; now right.
        -- destruct j as [|j]; simpl in Hrj.
           ++ injection Hrj as ->; left; now left.
           ++ right; exists j; split; [lia | exact Hrj].
Qed.

(** How often a row value occurs among the flagged rows. *)
Lemma count_occ_flagged (seen rs : list (row cell)) (r : row cell) :
  count_occ (row_eq_dec pd) (mask_rows rs (duplicated_from pd seen rs)) r =
  if in_dec (row_eq_dec pd) r seen
  then count_occ (row_eq_dec pd) rs r
  else pred (count_occ (row_eq_dec pd) rs r).
Proof.
  revert seen; induction rs as [|r0 rs IH]; intros seen; simpl.
  - now destruct (in_dec (row_eq_dec pd) r seen).
  - destruct (in_dec (row_eq_dec pd) r0 seen) as [Hin0|Hout0]; simpl;
      rewrite ?IH; destruct ((row_eq_dec pd) r0 r) as [->|Hne];
      destruct (in_dec (row_eq_dec pd) r (_ :: seen)) as [Hin|Hout];
      destruct (in_dec (row_eq_dec pd) r seen) as [Hin'|Hout'];
      simpl in *; trivial; try tauto.
    all: try (exfalso; apply Hout; now left).
    all: try (destruct Hin as [E|Hin]; [now subst|contradiction]).
Qed.

Lemma mask_rows_incl (rs : list (row cell)) (mask : list bool) :
  incl (mask_rows rs mask) rs.
Proof.
  revert mask; induction rs as [|r rs IH]; intros [|[] mask]; simpl;
    try apply incl_nil_l.
  - apply incl_cons; [now left | apply incl_tl, IH].
  - apply incl_tl, IH.
Qed.

(** Counting a list value by value. *)
Lemma list_sum_indicator {X} (dec : forall x y : X, {x = y} + {x <> y})
    (x : X) (u : list X) :
  NoDup u ->
  list_sum (map (fun y => if dec x y then 1 else 0) u) =
  if in_dec dec x u then 1 else 0.
Proof.
  induction 1 as [|y u Hy Hu IH]; simpl; trivial.
  rewrite IH.
  destruct (dec x y) as [E|Hne]; destruct (dec y x) as [E'|Hne'];
    try congruence; destruct (in_dec dec x u) as [Hin|Hout]; trivial.
  exfalso; apply Hy; now rewrite <- E.
Qed.

Lemma length_by_value {X} (dec : forall x y : X, {x = y} + {x <> y})
    (l u : list X) :
  NoDup u -> incl l u ->
  List.length l = list_sum (map (count_occ dec l) u).
Proof.
  intros Hu; induction l as [|x l IH]; intros Hl; simpl.
  - induction u as [|y u IHu]; simpl; trivial.
    apply IHu; now inversion Hu.
  - apply incl_cons_inv in Hl as [Hx Hl].
    rewrite (IH Hl).
    assert (E : forall v, list_sum (map (fun y => if dec x y then S (count_occ dec l y)
                                                   else count_occ dec l y) v) =
                          list_sum (map (fun y => if dec x y then 1 else 0) v)
                          + list_sum (map (count_occ dec l) v)).
    { induction v as [|y v IHv]; simpl; trivial.
      rewrite IHv; destruct (dec x y); lia. }
    rewrite E, (list_sum_indicator dec x Hu).
    now destruct (in_dec dec x u).
Qed.

(** The duplicate report, event by event. *)
Lemma report_duplicates_run (df : DataFrame cell) :
  report_duplicates pd df =
    ((Stdout ("Filas duplicadas: " ++ str_nat (dup_count pd df))
        :: if (0 <? dup_count pd df)%nat
           then [Stdout "Ejemplo de filas duplicadas:";
                 Stdout (to_string pd (head 5 (getitem_mask df (duplicated pd df))))]
           else [])%list,
     Normal tt).
Proof.
  unfold report_duplicates, when.
  now destruct (0 <? dup_count pd df)%nat.
Qed.

(** C10.  A row is flagged exactly when an equal row stands above it, so
    the first row of every group of equal rows is not flagged; a row value
    that occurs [k] times occurs [k - 1] times among the flagged rows; the
    printed count is the number of flagged rows, that is the sum of
    [k - 1] over the distinct row values; and the printed examples are the
    first flagged rows. *)
Theorem duplicates_are_repeats_of_an_earlier_row (df : DataFrame cell) :
  let rs := df_rows df in
  let flagged := df_rows (getitem_mask df (duplicated pd df)) in
  (forall i, nth_error (duplicated pd df) i = Some true <->
             exists r j, j < i /\ nth_error rs j = Some r /\ nth_error rs i = Some r) /\
  (forall r, count_occ (row_eq_dec pd) flagged r = pred (count_occ (row_eq_dec pd) rs r)) /\
  dup_count pd df = List.length flagged /\
  dup_count pd df =
    list_sum (map (fun r => pred (count_occ (row_eq_dec pd) rs r)) (nodup (row_eq_dec pd) rs)) /\
  printed (trace (report_duplicates pd df)) =
    (("Filas duplicadas: " ++ str_nat (List.length flagged))%string
       :: if (0 <? List.length flagged)%nat
          then ["Ejemplo de filas duplicadas:";
                to_string pd (Frame (df_columns df) (firstn 5 flagged))]
          else [])%list.
Proof.
  intros rs flagged.
  assert (Hcount : forall r, count_occ (row_eq_dec pd) flagged r = pred (count_occ (row_eq_dec pd) rs r)).
  { intros r; unfold flagged, getitem_mask, duplicated; simpl.
    rewrite count_occ_flagged.
    destruct (in_dec (row_eq_dec pd) r []) as [[]|_]; reflexivity. }
  assert (Hlen : dup_count pd df = List.length flagged).
  { unfold dup_count, duplicated, flagged, getitem_mask; simpl.
    apply sum_mask_duplicated_from. }
  repeat split.
  - unfold duplicated; rewrite flagged_iff.
    intros (r & Hi & [[] | (j & Hj & Hr)]); exists r, j; auto.
  - unfold duplicated; rewrite flagged_iff.
    intros (r & j & Hj & Hrj & Hri); exists r; split; trivial.
    right; exists j; auto.
  - exact Hcount.
  - exact Hlen.
  - rewrite Hlen.
    rewrite (length_by_value (row_eq_dec pd) (l := flagged) (u := nodup (row_eq_dec pd) rs)).
    + apply f_equal, map_ext; exact Hcount.
    + apply NoDup_nodup.
    + intros r Hr; apply nodup_In.
      exact (mask_rows_incl _ _ r Hr).
  - rewrite report_duplicates_run, Hlen; simpl.
    now destruct (0 <? List.length flagged)%nat.
Qed.

(** ** The Plot Renderer *)

Lemma saved_app (t1 t2 : list (event cell)) : saved (t1 ++ t2) = (saved t1 ++ saved t2)%list.
Proof. apply flat_map_app. Qed.

Lemma trace_bind {A B} (m : Run cell A) (k : A -> Run cell B) :
  trace (bind m k) =
  (trace m ++ match ending m with Normal a => trace (k a) | _ => [] end)%list.
Proof.
  destruct m as [t [a| |e]]; simpl; rewrite ?app_nil_r; trivial.
  now destruct (k a).
Qed.

Lemma ending_bind {A B} (m : Run cell A) (k : A -> Run cell B) :
  ending (bind m k) =
  match ending m with
  | Normal a => ending (k a)
  | Returned => Returned
  | Raised e => Raised e
  end.
Proof.
  destruct m as [t [a| |e]]; simpl; trivial.
  now destruct (k a).
Qed.

(** One turn of the loop ends well when none of its four fallible calls
    raises, and with the exception of the first that does. *)
Lemma plot_column_ending (out : string) (df : DataFrame cell) (c : string) :
  ending (plot_column pd out df c) =
  match histplot_error pd (dropna pd (getitem df c)) with
  | Some e => Raised e
  | None =>
  match savefig_error pd (hist_file out c) with
  | Some e => Raised e
  | None =>
  match boxplot_error pd (dropna pd (getitem df c)) with
  | Some e => Raised e
  | None =>
  match savefig_error pd (box_file out c) with
  | Some e => Raised e
  | None => Normal tt
  end end end end.
Proof.
  unfold plot_column, attempt.
  destruct (histplot_error pd (dropna pd (getitem df c))); trivial.
  destruct (savefig_error pd (hist_file out c)); trivial.
  destruct (boxplot_error pd (dropna pd (getitem df c))); trivial.
  destruct (savefig_error pd (box_file out c)); trivial.
Qed.

Lemma plot_column_complete (out : string) (df : DataFrame cell) (c : string) :
  ending (plot_column pd out df c) = Normal tt ->
  trace (plot_column pd out df c) = column_events pd out df c.
Proof.
  unfold plot_column, attempt.
  destruct (histplot_error pd (dropna pd (getitem df c))); [discriminate|].
  destruct (savefig_error pd (hist_file out c)); [discriminate|].
  destruct (boxplot_error pd (dropna pd (getitem df c))); [discriminate|].
  destruct (savefig_error pd (box_file out c)); [discriminate|].
  reflexivity.
Qed.

(** What one turn of the loop saves: both files when it ends well, and
    otherwise the histogram alone or nothing. *)
Lemma plot_column_saves (out : string) (df : DataFrame cell) (c : string) :
  exists rest,
    [hist_file out c; box_file out c]
      = (saved (trace (plot_column pd out df c)) ++ rest)%list /\
    (ending (plot_column pd out df c) = Normal tt -> rest = []).
Proof.
  unfold plot_column, attempt.
  destruct (histplot_error pd (dropna pd (getitem df c)));
    [eexists; split; [reflexivity | discriminate]|].
  destruct (savefig_error pd (hist_file out c));
    [eexists; split; [reflexivity | discriminate]|].
  destruct (boxplot_error pd (dropna pd (getitem df c)));
    [eexists; split; [reflexivity | discriminate]|].
  destruct (savefig_error pd (box_file out c));
    [eexists; split; [reflexivity | discriminate]|].
  exists []; split; reflexivity.
Qed.

(** A loop that ends well has run every turn to its end. *)
Lemma for_each_complete {X} (xs : list X) (body : X -> Run cell unit) :
  ending (for_each xs body) = Normal tt ->
  (forall x, In x xs -> ending (body x) = Normal tt) /\
  trace (for_each xs body) = flat_map (fun x => trace (body x)) xs.
Proof.
  induction xs as [|x xs IH]; cbn [for_each]; intros H.
  - split; [intros x [] | reflexivity].
  - rewrite ending_bind in H; rewrite trace_bind.
    destruct (ending (body x)) as [[]| |e] eqn:E; try discriminate.
    destruct (IH H) as [Hall Htrace]; split.
    + intros y [<- | Hy]; auto.
    + now rewrite Htrace.
Qed.

Lemma loop_saves (out : string) (df : DataFrame cell) (cs : list string) :
  exists rest,
    column_files out cs
      = (saved (trace (for_each cs (plot_column pd out df))) ++ rest)%list /\
    (ending (for_each cs (plot_column pd out df)) = Normal tt -> rest = []).
Proof.
  induction cs as [|c cs (rest & IH & IHn)]; cbn [for_each].
  - exists []; split; reflexivity.
  - rewrite trace_bind, ending_bind, saved_app.
    destruct (plot_column_saves out df c) as (r & Hr & Hrn).
    change (column_files out (c :: cs))
      with ([hist_file out c; box_file out c] ++ column_files out cs)%list.
    destruct (ending (plot_column pd out df c)) as [[]| |e].
    + rewrite (Hrn eq_refl), app_nil_r in Hr.
      exists rest; split; [|exact IHn].
      now rewrite Hr, IH, app_assoc.
    + exists (r ++ column_files out cs)%list; split; [|discriminate].
      now rewrite Hr, app_nil_r, app_assoc.
    + exists (r ++ column_files out cs)%list; split; [|discriminate].
      now rewrite Hr, app_nil_r, app_assoc.
Qed.

Lemma plot_correlation_starts (out : string) (df : DataFrame cell) :
  2 <= List.length (num_cols df) ->
  exists rest,
    trace (plot_correlation pd out df) =
      (Stdout "Generando mapa de correlación (guardado en ./output/correlation_matrix.png)"
         :: Figure (py_max 6 (len (num_cols df)),
                    py_max 4 (len (num_cols df) / 2))%Q
         :: rest)%list.
Proof.
  intros H; unfold plot_correlation, when, attempt.
  destruct (Nat.ltb_spec 1 (List.length (num_cols df))) as [_|]; [|lia].
  destruct (heatmap_error pd (getitem_columns df (num_cols df)));
    [eexists; reflexivity|].
  destruct (savefig_error pd (corr_file out)); eexists; reflexivity.
Qed.

Lemma plot_correlation_complete (out : string) (df : DataFrame cell) :
  ending (plot_correlation pd out df) = Normal tt ->
  trace (plot_correlation pd out df) =
    if (1 <? List.length (num_cols df))%nat then correlation_events out df else [].
Proof.
  unfold plot_correlation, when, attempt.
  destruct (1 <? List.length (num_cols df))%nat; [|reflexivity].
  destruct (heatmap_error pd (getitem_columns df (num_cols df))); [discriminate|].
  destruct (savefig_error pd (corr_file out)); [discriminate|].
  reflexivity.
Qed.

Lemma plot_correlation_saves (out : string) (df : DataFrame cell) :
  exists rest,
    (if (1 <? List.length (num_cols df))%nat then [corr_file out] else [])
      = (saved (trace (plot_correlation pd out df)) ++ rest)%list /\
    (ending (plot_correlation pd out df) = Normal tt -> rest = []).
Proof.
  unfold plot_correlation, when, attempt.
  destruct (1 <? List.length (num_cols df))%nat;
    [|exists []; split; reflexivity].
  destruct (heatmap_error pd (getitem_columns df (num_cols df)));
    [eexists; split; [reflexivity | discriminate]|].
  destruct (savefig_error pd (corr_file out));
    [eexists; split; [reflexivity | discriminate]|].
  exists []; split; reflexivity.
Qed.

(** With a numeric column: the heading, the loop, the correlation step. *)
Lemma plot_renderer_run (out : string) (df : DataFrame cell) :
  num_cols df <> [] ->
  plot_renderer pd out df =
    bind (print cell (nl ++ "Generando histogramas y boxplots para columnas numéricas (guardados en ./output)"))
         (fun _ => bind (for_each (num_cols df) (plot_column pd out df))
                        (fun _ => plot_correlation pd out df)).
Proof.
  intros Hne; unfold plot_renderer.
  destruct (num_cols df); [contradiction | reflexivity].
Qed.

Lemma plot_renderer_trace (out : string) (df : DataFrame cell) :
  num_cols df <> [] ->
  trace (plot_renderer pd out df) =
    (Stdout (nl ++ "Generando histogramas y boxplots para columnas numéricas (guardados en ./output)")
       :: trace (for_each (num_cols df) (plot_column pd out df))
       ++ match ending (for_each (num_cols df) (plot_column pd out df)) with
          | Normal _ => trace (plot_correlation pd out df)
          | _ => []
          end)%list.
Proof.
  intros Hne; rewrite (plot_renderer_run out df Hne).
  now rewrite trace_bind, trace_bind.
Qed.

Lemma plot_renderer_ending (out : string) (df : DataFrame cell) :
  num_cols df <> [] ->
  ending (plot_renderer pd out df) =
    match ending (for_each (num_cols df) (plot_column pd out df)) with
    | Normal _ => ending (plot_correlation pd out df)
    | Returned => Returned
    | Raised e => Raised e
    end.
Proof.
  intros Hne; rewrite (plot_renderer_run out df Hne).
  now rewrite ending_bind, ending_bind.
Qed.

(** Without one: the notice. *)
Lemma plot_renderer_notice (out : string) (df : DataFrame cell) :
  num_cols df = [] ->
  plot_renderer pd out df =
    ([Stdout "No se detectaron columnas numéricas para graficar."], Normal tt).
Proof. unfold plot_renderer; now intros ->. Qed.

(** What the Plot Renderer saves is the beginning of the full list of
    files, and the full list when it ends well. *)
Lemma plot_renderer_saves (out : string) (df : DataFrame cell) :
  exists rest,
    (column_files out (num_cols df)
       ++ if (1 <? List.length (num_cols df))%nat then [corr_file out] else [])%list
      = (saved (trace (plot_renderer pd out df)) ++ rest)%list /\
    (ending (plot_renderer pd out df) = Normal tt -> rest = []).
Proof.
  destruct (num_cols df) as [|c0 cs0] eqn:E.
  { rewrite plot_renderer_notice by trivial; exists []; split; reflexivity. }
  assert (Hne : num_cols df <> []) by (rewrite E; discriminate).
  rewrite <- E.
  rewrite (plot_renderer_trace out df Hne), (plot_renderer_ending out df Hne).
  change (saved (?e :: ?t)) with (saved [e] ++ saved t)%list.
  cbn [saved flat_map app]; rewrite saved_app.
  destruct (loop_saves out df (num_cols df)) as (r1 & H1 & H1n).
  destruct (plot_correlation_saves out df) as (r2 & H2 & H2n).
  destruct (ending (for_each (num_cols df) (plot_column pd out df))) as [[]| |e].
  - rewrite (H1n eq_refl), app_nil_r in H1.
    exists r2; split; [|exact H2n].
    now rewrite H1, H2, app_assoc.
  - exists (r1 ++ if (1 <? List.length (num_cols df))%nat
                   then [corr_file out] else [])%list; split; [|discriminate].
    rewrite H1; cbn [saved flat_map]; now rewrite app_nil_r, <- app_assoc.
  - exists (r1 ++ if (1 <? List.length (num_cols df))%nat
                   then [corr_file out] else [])%list; split; [|discriminate].
    rewrite H1; cbn [saved flat_map]; now rewrite app_nil_r, <- app_assoc.
Qed.

Lemma plot_renderer_saves_complete (out : string) (df : DataFrame cell) :
  ending (plot_renderer pd out df) = Normal tt ->
  saved (trace (plot_renderer pd out df)) =
    (column_files out (num_cols df)
       ++ if (1 <? List.length (num_cols df))%nat then [corr_file out] else [])%list.
Proof.
  intros H; destruct (plot_renderer_saves out df) as (rest & Hs & Hn).
  now rewrite Hs, (Hn H), app_nil_r.
Qed.

(** How the Plot Renderer ends: with the first exception of its fallible
    calls, and normally when none of them raises. *)
Lemma first_error_app (l1 l2 : list (option exn)) :
  first_error (l1 ++ l2) =
  match first_error l1 with Some e => Some e | None => first_error l2 end.
Proof. induction l1 as [|[e|] l1 IH]; simpl; trivial. Qed.

Lemma loop_ending (out : string) (df : DataFrame cell) (cs : list string) :
  ending (for_each cs (plot_column pd out df)) =
  match first_error (flat_map (column_calls pd out df) cs) with
  | Some e => Raised e
  | None => Normal tt
  end.
Proof.
  induction cs as [|c cs IH]; cbn [for_each flat_map]; trivial.
  rewrite ending_bind, plot_column_ending, first_error_app.
  unfold column_calls at 1; cbn [first_error].
  destruct (histplot_error pd (dropna pd (getitem df c))); trivial.
  destruct (savefig_error pd (hist_file out c)); trivial.
  destruct (boxplot_error pd (dropna pd (getitem df c))); trivial.
  destruct (savefig_error pd (box_file out c)); trivial.
Qed.

Lemma plot_correlation_ending (out : string) (df : DataFrame cell) :
  ending (plot_correlation pd out df) =
  match first_error
          (if (1 <? List.length (num_cols df))%nat
           then [heatmap_error pd (getitem_columns df (num_cols df));
                 savefig_error pd (corr_file out)]
           else []) with
  | Some e => Raised e
  | None => Normal tt
  end.
Proof.
  unfold plot_correlation, when, attempt.
  destruct (1 <? List.length (num_cols df))%nat; trivial.
  cbn [first_error].
  destruct (heatmap_error pd (getitem_columns df (num_cols df))); trivial.
  destruct (savefig_error pd (corr_file out)); trivial.
Qed.

Lemma plot_renderer_ending_calls (out : string) (df : DataFrame cell) :
  ending (plot_renderer pd out df) =
  match first_error (plot_calls pd out df) with
  | Some e => Raised e
  | None => Normal tt
  end.
Proof.
  unfold plot_calls.
  destruct (num_cols df) as [|c0 cs0] eqn:E.
  { now rewrite plot_renderer_notice. }
  assert (Hne : num_cols df <> []) by (rewrite E; discriminate).
  rewrite <- E, (plot_renderer_ending out df Hne), first_error_app.
  rewrite loop_ending, plot_correlation_ending.
  now destruct (first_error (flat_map (column_calls pd out df) (num_cols df))).
Qed.

Lemma plot_renderer_never_returns (out : string) (df : DataFrame cell) :
  ending (plot_renderer pd out df) <> Returned.
Proof.
  rewrite plot_renderer_ending_calls.
  now destruct (first_error (plot_calls pd out df)).
Qed.

Lemma saved_loader (w : World cell) : saved (trace (loader w)) = [].
Proof.
  unfold loader, pd_read_csv, when.
  destruct (path_exists w (csv_path w)); [|reflexivity].
  destruct (read_csv w (csv_path w) None); [|reflexivity].
  destruct (read_csv w (csv_path w) (Some ";")); reflexivity.
Qed.

(** What a run that loads a frame saves: what the Plot Renderer saves, when
    the Summary Reporter lets the run get there. *)
Lemma saved_main (w : World cell) (df : DataFrame cell) :
  import_error w = None ->
  ending (loader w) = Normal df ->
  saved (trace (main pd w)) =
    match ending (summary_reporter pd df) with
    | Normal _ => saved (trace (plot_renderer pd (out_dir w) df))
    | _ => []
    end.
Proof.
  intros Himp Hload.
  rewrite (main_after_load w Himp Hload); cbn [trace fst].
  change (saved (?e :: ?t)) with (saved [e] ++ saved t)%list.
  rewrite saved_app, saved_loader.
  change (saved (Mkdir ?d :: ?t)) with (saved t).
  rewrite saved_app.
  destruct (prints_save_nothing (summary_reporter_only_prints df)) as [-> _].
  destruct (ending (summary_reporter pd df)); trivial.
  rewrite saved_app.
  destruct (ending (plot_renderer pd (out_dir w) df)); simpl; now rewrite app_nil_r.
Qed.

(** ** The Summary Reporter and the kinds of column *)

Lemma describe_number_without_numeric_columns (df : DataFrame cell) :
  num_cols df = [] -> exists msg, describe is_number df = inl (ValueError msg).
Proof.
  unfold num_cols; intros H; apply map_eq_nil in H.
  now apply describe_raises.
Qed.

Lemma describe_object_without_text_columns (df : DataFrame cell) :
  cat_cols df = [] ->
  exists msg, describe is_object_or_category df = inl (ValueError msg).
Proof.
  rewrite cat_cols_selected; intros H; apply map_eq_nil in H.
  now apply describe_raises.
Qed.

(** The Summary Reporter on a frame without numeric columns: it stops at the
    first [describe]. *)
Lemma summary_reporter_stops_at_describe_number (df : DataFrame cell) (e : exn) :
  describe is_number df = inl e ->
  summary_reporter pd df =
    ([Stdout "Primeras 5 filas:";
      Stdout (to_string pd (head 5 df));
      Stdout rule;
      Stdout ("Dimensiones (filas, columnas): " ++ repr_shape (shape df));
      Stdout (nl ++ "Tipos de columnas:");
      Stdout (repr_dtypes pd (df_columns df));
      Stdout rule;
      Stdout "Valores nulos por columna:";
      Stdout (repr_counts pd (null_counts pd df));
      Stdout rule;
      Stdout "Estadísticas descriptivas (numéricas):"], Raised e).
Proof.
  intros H; unfold summary_reporter, report_describe_number.
  rewrite H; reflexivity.
Qed.


(** C2.  The Summary Reporter runs to its end exactly on the frames that
    have both a numeric column and a text column.  On every other frame one
    of the two [describe] calls raises [ValueError], which nothing in the
    routine catches. *)
Theorem summary_reporter_completes_iff_both_kinds (df : DataFrame cell) :
  (ending (summary_reporter pd df) = Normal tt <->
   num_cols df <> [] /\ cat_cols df <> []) /\
  (num_cols df = [] \/ cat_cols df = [] ->
   exists msg, ending (summary_reporter pd df) = Raised (ValueError msg)).
Proof.
  rewrite summary_reporter_ending.
  assert (Hn : num_cols df <> [] -> exists d, describe is_number df = inr d).
  { intros H; eexists; apply describe_answers.
    intros E; apply H; unfold num_cols; now rewrite E. }
  assert (Ho : cat_cols df <> [] ->
               exists d, describe is_object_or_category df = inr d).
  { intros H; eexists; apply describe_answers.
    intros E; apply H; rewrite cat_cols_selected; now rewrite E. }
  pose proof (describe_number_without_numeric_columns df) as Hn'.
  pose proof (describe_object_without_text_columns df) as Ho'.
  destruct (num_cols df) as [|c cs]; destruct (cat_cols df) as [|c' cs'].
  - destruct (Hn' eq_refl) as [msg ->].
    split; [split; [discriminate | intros [[] _]; reflexivity] | eauto].
  - destruct (Hn' eq_refl) as [msg ->].
    split; [split; [discriminate | intros [[] _]; reflexivity] | eauto].
  - destruct Hn as [d ->]; [discriminate|].
    destruct (Ho' eq_refl) as [msg ->].
    split; [split; [discriminate | intros [_ []]; reflexivity] | eauto].
  - destruct Hn as [d ->]; [discriminate|].
    destruct Ho as [d' ->]; [discriminate|].
    split; [split; [split; discriminate | reflexivity] |].
    intros [H | H]; discriminate.
Qed.

(** C8.  A run that loads a frame without numeric columns: after creating
    the output directory it prints the head, the shape, the types, the null
    counts and the heading of the numeric statistics, and there [describe]
    raises.  The run ends with that exception; the Plot Renderer is not
    reached, so its notice is not printed.  The output directory is created
    and nothing is saved in it. *)
Theorem run_without_numeric_columns_stops_before_the_notice
    (w : World cell) (df : DataFrame cell) :
  import_error w = None ->
  ending (loader w) = Normal df ->
  num_cols df = [] ->
  exists msg,
    main pd w =
      ((SnsSet "whitegrid" :: trace (loader w)
          ++ [Mkdir (out_dir w);
              Stdout "Primeras 5 filas:";
              Stdout (to_string pd (head 5 df));
              Stdout rule;
              Stdout ("Dimensiones (filas, columnas): " ++ repr_shape (shape df));
              Stdout (nl ++ "Tipos de columnas:");
              Stdout (repr_dtypes pd (df_columns df));
              Stdout rule;
              Stdout "Valores nulos por columna:";
              Stdout (repr_counts pd (null_counts pd df));
              Stdout rule;
              Stdout "Estadísticas descriptivas (numéricas):"])%list,
       Raised (ValueError msg)) /\
    plot_renderer pd (out_dir w) df =
      ([Stdout "No se detectaron columnas numéricas para graficar."], Normal tt).
Proof.
  intros Himp Hload Hnum.
  destruct (describe_number_without_numeric_columns df Hnum) as [msg Hd].
  exists msg; split; [|now apply plot_renderer_notice].
  rewrite (main_after_load w Himp Hload).
  rewrite (summary_reporter_stops_at_describe_number df Hd).
  cbn [trace ending fst snd]; now rewrite app_nil_r.
Qed.

Lemma loader_never_raises (w : World cell) (e : exn) :
  ending (loader w) <> Raised e.
Proof.
  rewrite loader_ending.
  destruct (path_exists w (csv_path w)); [|discriminate].
  destruct (read_csv w (csv_path w) None); [|discriminate].
  destruct (read_csv w (csv_path w) (Some ";")); discriminate.
Qed.

(** How the Summary Reporter can end. *)
Lemma summary_reporter_ending_cases (df : DataFrame cell) :
  (ending (summary_reporter pd df) = Normal tt /\
   num_cols df <> [] /\ cat_cols df <> []) \/
  (exists msg, ending (summary_reporter pd df) = Raised (ValueError msg) /\
               (num_cols df = [] \/ cat_cols df = [])).
Proof.
  destruct (num_cols df) as [|c cs] eqn:En.
  - right.
    destruct (describe_number_without_numeric_columns df En) as [msg Hd].
    exists msg; split; [|now left].
    rewrite summary_reporter_ending; now rewrite Hd.
  - destruct (cat_cols df) as [|c' cs'] eqn:Ec.
    + right.
      destruct (describe_object_without_text_columns df Ec) as [msg Hd].
      exists msg; split; [|now right].
      rewrite summary_reporter_ending, Hd, describe_answers; trivial.
      intros E; unfold num_cols in En; rewrite E in En; discriminate.
    + left; split; [|split; discriminate].
      apply summary_reporter_completes_both; [rewrite En | rewrite Ec]; discriminate.
Qed.

(** The Summary Reporter on a frame with numeric columns and no text
    column: it stops at the second [describe]. *)
Lemma summary_reporter_stops_at_describe_object
    (df d : DataFrame cell) (e : exn) :
  describe is_number df = inr d ->
  describe is_object_or_category df = inl e ->
  summary_reporter pd df =
    ([Stdout "Primeras 5 filas:";
      Stdout (to_string pd (head 5 df));
      Stdout rule;
      Stdout ("Dimensiones (filas, columnas): " ++ repr_shape (shape df));
      Stdout (nl ++ "Tipos de columnas:");
      Stdout (repr_dtypes pd (df_columns df));
      Stdout rule;
      Stdout "Valores nulos por columna:";
      Stdout (repr_counts pd (null_counts pd df));
      Stdout rule;
      Stdout "Estadísticas descriptivas (numéricas):";
      Stdout (repr_describe_T pd d);
      Stdout rule;
      Stdout "Estadísticas (no numéricas):"], Raised e).
Proof.
  intros H1 H2.
  unfold summary_reporter, report_describe_number, report_describe_object.
  rewrite H1, H2; reflexivity.
Qed.

(** A run on a frame in which one of the two [describe] calls selects no
    column saves nothing and ends with the [ValueError] of that call. *)
Lemma main_lacking_a_kind (w : World cell) (df : DataFrame cell) :
  import_error w = None ->
  ending (loader w) = Normal df ->
  num_cols df = [] \/ df_columns (select_dtypes is_object_or_category df) = [] ->
  saved (trace (main pd w)) = [] /\
  exists msg, ending (main pd w) = Raised (ValueError msg).
Proof.
  intros Himp Hload Hk.
  destruct (summary_reporter_ending_cases df)
    as [(_ & Hn & Hc) | (msg & Hs & _)].
  { destruct Hk as [Hk | Hk]; [contradiction|].
    rewrite cat_cols_selected, Hk in Hc; now elim Hc. }
  split.
  - now rewrite (saved_main w Himp Hload), Hs.
  - exists msg; now rewrite (main_after_load w Himp Hload), Hs.
Qed.

(** How a run that falls off the end got there. *)
Lemma main_normal_inv (w : World cell) :
  ending (main pd w) = Normal tt ->
  import_error w = None /\
  exists df, ending (loader w) = Normal df /\
             ending (summary_reporter pd df) = Normal tt /\
             ending (plot_renderer pd (out_dir w) df) = Normal tt /\
             num_cols df <> [].
Proof.
  intros H.
  destruct (import_error w) as [e|] eqn:Himp.
  { rewrite (main_without_dependencies w Himp) in H; discriminate. }
  split; trivial.
  destruct (ending (loader w)) as [df| |e] eqn:El.
  - exists df; split; trivial.
    rewrite (main_after_load w Himp El) in H; cbn [ending snd] in H.
    destruct (summary_reporter_ending_cases df)
      as [(Hs & Hn & _) | (msg & Hs & _)]; rewrite Hs in H; [|discriminate].
    split; trivial; split; trivial.
    now destruct (ending (plot_renderer pd (out_dir w) df)) as [[]| |].
  - rewrite (main_stops_in_loader w Himp El) in H; discriminate.
  - now apply loader_never_raises in El.
Qed.

(** What a run saves is the beginning of the full list of files. *)
Lemma main_saves_prefix (w : World cell) (df : DataFrame cell) :
  import_error w = None ->
  ending (loader w) = Normal df ->
  exists rest,
    (column_files (out_dir w) (num_cols df)
       ++ if (1 <? List.length (num_cols df))%nat
          then [corr_file (out_dir w)] else [])%list
      = (saved (trace (main pd w)) ++ rest)%list.
Proof.
  intros Himp Hload; rewrite (saved_main w Himp Hload).
  destruct (ending (summary_reporter pd df)).
  - destruct (plot_renderer_saves (out_dir w) df) as (rest & Hs & _); eauto.
  - eexists; reflexivity.
  - eexists; reflexivity.
Qed.

Lemma main_saves_complete (w : World cell) (df : DataFrame cell) :
  ending (loader w) = Normal df ->
  ending (main pd w) = Normal tt ->
  saved (trace (main pd w)) =
    (column_files (out_dir w) (num_cols df)
       ++ if (1 <? List.length (num_cols df))%nat
          then [corr_file (out_dir w)] else [])%list.
Proof.
  intros Hload H.
  destruct (main_normal_inv w H) as (Himp & df' & El & Hs & Hp & _).
  rewrite Hload in El; injection El as <-.
  rewrite (saved_main w Himp Hload), Hs.
  now apply plot_renderer_saves_complete.
Qed.

(** The first [savefig] of the Plot Renderer raising ends it with nothing
    saved. *)
Lemma plot_renderer_first_savefig_raises
    (out : string) (df : DataFrame cell) (c : string) (e : exn) :
  hd_error (num_cols df) = Some c ->
  histplot_error pd (dropna pd (getitem df c)) = None ->
  savefig_error pd (hist_file out c) = Some e ->
  plot_renderer pd out df =
    ([Stdout (nl ++ "Generando histogramas y boxplots para columnas numéricas (guardados en ./output)");
      Figure (8, 4)%Q;
      Histplot (dropna pd (getitem df c)) true;
      Title ("Histograma: " ++ c);
      TightLayout], Raised e).
Proof.
  intros Hc Hh Hs; unfold plot_renderer.
  destruct (num_cols df) as [|c' cs]; [discriminate|].
  injection Hc as ->.
  cbn [for_each]; unfold plot_column, attempt.
  rewrite Hh, Hs; reflexivity.
Qed.

(** C7.  A run that loads a frame without a numeric column, or one in
    which [include=['object', 'category']] selects no column (a file with
    numeric columns only, say), prints no duplicate count.  It prints the head, the
    shape, the types, the null counts and the heading of the numeric
    statistics; without a numeric column [describe] raises there, and
    otherwise the numeric statistics and the heading of the non-numeric
    ones follow and the second [describe] raises.  The run ends with that
    [ValueError], before the duplicate report of lines 84-89, whatever the
    number of duplicate rows.  The duplicate report on its own prints the
    count line, which is the only line when the count is zero, and
    otherwise a heading and at most five rows. *)
Theorem run_lacking_a_kind_of_column_prints_no_duplicate_count
    (w : World cell) (df : DataFrame cell) :
  import_error w = None ->
  ending (loader w) = Normal df ->
  num_cols df = [] \/ df_columns (select_dtypes is_object_or_category df) = [] ->
  (exists msg between,
     main pd w =
       ((SnsSet "whitegrid" :: trace (loader w)
           ++ [Mkdir (out_dir w);
               Stdout "Primeras 5 filas:";
               Stdout (to_string pd (head 5 df));
               Stdout rule;
               Stdout ("Dimensiones (filas, columnas): " ++ repr_shape (shape df));
               Stdout (nl ++ "Tipos de columnas:");
               Stdout (repr_dtypes pd (df_columns df));
               Stdout rule;
               Stdout "Valores nulos por columna:";
               Stdout (repr_counts pd (null_counts pd df));
               Stdout rule;
               Stdout "Estadísticas descriptivas (numéricas):"]
           ++ between)%list,
        Raised (ValueError msg)) /\
     (between = [] \/
      exists d, between = [Stdout (repr_describe_T pd d);
                           Stdout rule;
                           Stdout "Estadísticas (no numéricas):"])) /\
  report_duplicates pd df =
    ((Stdout ("Filas duplicadas: " ++ str_nat (dup_count pd df))
        :: if (0 <? dup_count pd df)%nat
           then [Stdout "Ejemplo de filas duplicadas:";
                 Stdout (to_string pd (head 5 (getitem_mask df (duplicated pd df))))]
           else [])%list,
     Normal tt) /\
  List.length (df_rows (head 5 (getitem_mask df (duplicated pd df)))) <= 5.
Proof.
  intros Himp Hload Hk.
  split; [|split; [apply report_duplicates_run|]].
  - rewrite (main_after_load w Himp Hload).
    destruct (describe is_number df) as [e|d] eqn:Ed.
    + assert (Hmsg : exists msg, e = ValueError msg).
      { destruct (num_cols df) as [|c cs] eqn:En.
        - destruct (describe_number_without_numeric_columns df En) as [msg Hd].
          exists msg; congruence.
        - rewrite describe_answers in Ed; [discriminate|].
          intros E; unfold num_cols in En; rewrite E in En; discriminate. }
      destruct Hmsg as [msg ->]; exists msg, []; split; [|now left].
      rewrite (summary_reporter_stops_at_describe_number df Ed).
      cbn [trace ending fst snd]; now rewrite !app_nil_r.
    + assert (Hc : df_columns (select_dtypes is_object_or_category df) = []).
      { destruct Hk as [Hn | Hc]; trivial.
        destruct (describe_number_without_numeric_columns df Hn) as [msg Hd].
        congruence. }
      destruct (describe_raises is_object_or_category df Hc) as [msg Hd].
      exists msg, [Stdout (repr_describe_T pd d); Stdout rule;
                   Stdout "Estadísticas (no numéricas):"].
      split; [|right; now exists d].
      rewrite (summary_reporter_stops_at_describe_object df Ed Hd).
      cbn [trace ending fst snd]; now rewrite !app_nil_r.
  - unfold head; cbn [df_rows]; rewrite length_firstn; apply Nat.le_min_l.
Qed.

(** C3.  A run that loads a frame with numeric columns does not always
    save a histogram and a box plot for each.  On a frame in which
    [include=['object', 'category']] selects no column (a file with numeric
    columns only, say) it saves nothing: the second [describe] raises
    before the Plot Renderer is reached.  When the Summary Reporter
    completes and [savefig] raises for the first histogram, as it does for
    a column name that points into a directory that does not exist,
    nothing is saved either and the run ends with that exception.
    In every run the files saved are the beginning of the list claimed,
    [hist_<c>.png] then [box_<c>.png] for each numeric column [c] in
    column order, the name used as it is, and then the correlation file
    when there is more than one; a run that falls off the end has saved
    the whole list.  The per-column files are twice as many as the
    numeric columns. *)
Theorem run_saves_every_pair_only_when_nothing_raises
    (w : World cell) (df : DataFrame cell) :
  import_error w = None ->
  ending (loader w) = Normal df ->
  1 <= List.length (num_cols df) ->
  let files :=
    flat_map (fun c => [out_dir w ++ "/" ++ "hist_" ++ c ++ ".png";
                        out_dir w ++ "/" ++ "box_" ++ c ++ ".png"]) (num_cols df) in
  let every :=
    (files ++ if (1 <? List.length (num_cols df))%nat
              then [(out_dir w ++ "/" ++ "correlation_matrix.png")%string]
              else [])%list in
  List.length files = 2 * List.length (num_cols df) /\
  (df_columns (select_dtypes is_object_or_category df) = [] ->
   saved (trace (main pd w)) = [] /\
   exists msg, ending (main pd w) = Raised (ValueError msg)) /\
  (forall c e,
     ending (summary_reporter pd df) = Normal tt ->
     hd_error (num_cols df) = Some c ->
     histplot_error pd (dropna pd (getitem df c)) = None ->
     savefig_error pd (out_dir w ++ "/" ++ "hist_" ++ c ++ ".png") = Some e ->
     saved (trace (main pd w)) = [] /\ ending (main pd w) = Raised e) /\
  (exists rest, every = (saved (trace (main pd w)) ++ rest)%list) /\
  (ending (main pd w) = Normal tt -> saved (trace (main pd w)) = every).
Proof.
  intros Himp Hload HK files every.
  change files with (column_files (out_dir w) (num_cols df)) in *.
  assert (Hn : num_cols df <> [])
    by (intros E; rewrite E in HK; simpl in HK; lia).
  split; [apply column_files_length|].
  split; [intros Hc; apply (main_lacking_a_kind w Himp Hload); now right|].
  split; [|split].
  - intros c e Hc Hhd Hh Hs.
    pose proof (plot_renderer_first_savefig_raises (out_dir w) df Hhd Hh Hs) as Hp.
    rewrite (saved_main w Himp Hload), (main_after_load w Himp Hload).
    rewrite Hc, Hp.
    split; reflexivity.
  - apply (main_saves_prefix w Himp Hload).
  - apply (main_saves_complete w Hload).
Qed.

(** C4.  A run that loads a frame with two numeric columns or more does
    not always save [correlation_matrix.png]: on a frame in which
    [include=['object', 'category']] selects no column (a file with numeric
    columns only, say) the second [describe] raises before the Plot
    Renderer is reached, and the file is not saved whatever the number of
    numeric columns.  The other direction holds in every run: the file is saved
    only with two numeric columns or more.  A run that falls off the end
    has saved it exactly under that condition.  The correlation step, when
    none of its calls raises, prints its message, opens a figure of width
    [max(6, K)] and height [max(4, K / 2)], draws the heat map of
    [df[num_cols].corr()] annotated with format [.2f], and saves it; the
    frame whose correlation is drawn has the numeric columns as its
    columns. *)
Theorem run_saves_the_correlation_matrix_only_when_nothing_raises
    (w : World cell) (df : DataFrame cell) :
  import_error w = None ->
  ending (loader w) = Normal df ->
  let K := List.length (num_cols df) in
  let file := (out_dir w ++ "/" ++ "correlation_matrix.png")%string in
  (In file (saved (trace (main pd w))) -> 2 <= K) /\
  (df_columns (select_dtypes is_object_or_category df) = [] ->
   ~ In file (saved (trace (main pd w))) /\
   exists msg, ending (main pd w) = Raised (ValueError msg)) /\
  (ending (main pd w) = Normal tt ->
   (In file (saved (trace (main pd w))) <-> 2 <= K)) /\
  (2 <= K ->
   ending (plot_correlation pd (out_dir w) df) = Normal tt ->
   trace (plot_correlation pd (out_dir w) df) =
     [Stdout "Generando mapa de correlación (guardado en ./output/correlation_matrix.png)";
      Figure (py_max 6 (inject_Z (Z.of_nat K)),
              py_max 4 (inject_Z (Z.of_nat K) / 2))%Q;
      Heatmap (Corr (getitem_columns df (num_cols df))) true ".2f" "coolwarm" true;
      Title "Matriz de correlación";
      TightLayout;
      Savefig file;
      Close]) /\
  map fst (df_columns (getitem_columns df (num_cols df))) = num_cols df.
Proof.
  intros Himp Hload K file.
  change file with (corr_file (out_dir w)) in *.
  assert (Hin : forall l : list string,
            In (corr_file (out_dir w))
               (column_files (out_dir w) (num_cols df)
                  ++ (if (1 <? K)%nat then [corr_file (out_dir w)] else l))%list ->
            l = [] -> 2 <= K).
  { intros l H ->; apply in_app_or in H as [H | H].
    - now apply corr_file_not_column_file in H.
    - destruct (Nat.ltb_spec 1 K); [lia | destruct H]. }
  split; [|split; [|split; [|split]]].
  - intros H.
    destruct (main_saves_prefix w Himp Hload) as [rest Hrest].
    apply (Hin []); trivial.
    fold K in Hrest; rewrite Hrest; apply in_or_app; now left.
  - intros Hc.
    destruct (main_lacking_a_kind w Himp Hload (or_intror Hc)) as [Hs Hend].
    split; trivial.
    rewrite Hs; intros [].
  - intros Hend.
    rewrite (main_saves_complete w Hload Hend); fold K; split.
    + intros H; now apply (Hin []).
    + intros HK; apply in_or_app; right.
      destruct (Nat.ltb_spec 1 K); [now left | lia].
  - intros HK Hend.
    rewrite (plot_correlation_complete (out_dir w) df Hend); fold K.
    destruct (Nat.ltb_spec 1 K); [reflexivity | lia].
  - apply getitem_columns_labels, num_cols_are_labels.
Qed.




(** * Further properties of the routine *)

(** ** The dependency guard and the Loader *)

Lemma loader_is_plain (w : World cell) : Forall is_plain (trace (loader w)).
Proof.
  unfold loader, pd_read_csv, when.
  destruct (path_exists w (csv_path w)); [|repeat constructor].
  destruct (read_csv w (csv_path w) None); [|repeat constructor].
  destruct (read_csv w (csv_path w) (Some ";")); repeat constructor.
Qed.

Lemma loader_reads (w : World cell) :
  read_attempts (trace (loader w)) =
  if path_exists w (csv_path w) then
    match read_csv w (csv_path w) None with
    | inr _ => [None]
    | inl _ => [None; Some ";"]
    end
  else [].
Proof.
  unfold loader, pd_read_csv, when.
  destruct (path_exists w (csv_path w)); [|reflexivity].
  destruct (read_csv w (csv_path w) None); [|reflexivity].
  destruct (read_csv w (csv_path w) (Some ";")); reflexivity.
Qed.

Lemma loader_reads_only_the_csv (w : World cell) :
  Forall (reads_only (csv_path w)) (trace (loader w)).
Proof.
  unfold loader, pd_read_csv, when.
  destruct (path_exists w (csv_path w)); [|repeat constructor].
  destruct (read_csv w (csv_path w) None); [|repeat constructor].
  destruct (read_csv w (csv_path w) (Some ";")); repeat constructor.
Qed.

(** A property of events holds along a whole run when it holds of printing,
    of [sns.set], of what the Loader does, of [mkdir] and of what the Plot
    Renderer does. *)
Lemma main_trace_Forall (P : event cell -> Prop) (w : World cell) :
  (forall text, P (Stdout text)) ->
  P (SnsSet "whitegrid") ->
  Forall P (trace (loader w)) ->
  P (Mkdir (out_dir w)) ->
  (forall df, Forall P (trace (plot_renderer pd (out_dir w) df))) ->
  Forall P (trace (main pd w)).
Proof.
  intros Hprint Hset Hload Hmk Hplot.
  assert (Hsum : forall df, Forall P (trace (summary_reporter pd df))).
  { intros df; generalize (summary_reporter_only_prints df).
    apply Forall_impl; intros [] H; simpl in H; try contradiction; apply Hprint. }
  destruct (import_error w) as [e|] eqn:Himp.
  - rewrite (main_without_dependencies w Himp); repeat constructor; apply Hprint.
  - destruct (ending (loader w)) as [df| |e] eqn:El.
    + rewrite (main_after_load w Himp El); cbn [trace fst].
      constructor; trivial.
      apply Forall_app; split; trivial.
      constructor; trivial.
      apply Forall_app; split; [apply Hsum|].
      destruct (ending (summary_reporter pd df)); try constructor.
      apply Forall_app; split; [apply Hplot|].
      destruct (ending (plot_renderer pd (out_dir w) df));
        repeat constructor; apply Hprint.
    + rewrite (main_stops_in_loader w Himp El); now constructor.
    + now apply loader_never_raises in El.
Qed.

(** X1.  When one of the three imports fails the run prints the notice,
    the install instruction and the import error, and returns.  It does
    nothing else: it does not look for the CSV, reads nothing and creates
    nothing, whatever is on disk. *)
Theorem missing_dependencies_stop_the_run (w : World cell) (e : exn) :
  import_error w = Some e ->
  ending (main pd w) = Returned /\
  printed (trace (main pd w)) =
    ["Faltan dependencias necesarias para ejecutar el análisis.";
     "Instala las librerías con:" ++ nl ++ "    pip install pandas matplotlib seaborn";
     "Error de importación: " ++ exn_msg e] /\
  List.length (trace (main pd w)) = 3 /\
  read_attempts (trace (main pd w)) = [] /\
  writes (trace (main pd w)) = [].
Proof.
  intros Himp; rewrite (main_without_dependencies w Himp).
  repeat split.
Qed.

(** X2.  A file that parses only with [;] gives the same run as a file
    that parses at once into the same frame, but for the second
    [read_csv] call: the exception of the first attempt leaves no other
    mark, and when the first attempt succeeds no second one is made. *)
Theorem fallback_run_matches_direct_run
    (w1 w2 : World cell) (e1 : exn) (df : DataFrame cell) :
  import_error w1 = None ->
  import_error w2 = None ->
  base w1 = base w2 ->
  path_exists w1 (csv_path w1) = true ->
  path_exists w2 (csv_path w2) = true ->
  read_csv w1 (csv_path w1) None = inl e1 ->
  read_csv w1 (csv_path w1) (Some ";") = inr df ->
  read_csv w2 (csv_path w2) None = inr df ->
  exists rest,
    trace (main pd w1) =
      (SnsSet "whitegrid" :: Stdout ("Cargando: " ++ csv_path w1 ++ nl)
         :: ReadCsv (csv_path w1) None :: ReadCsv (csv_path w1) (Some ";")
         :: rest)%list /\
    trace (main pd w2) =
      (SnsSet "whitegrid" :: Stdout ("Cargando: " ++ csv_path w1 ++ nl)
         :: ReadCsv (csv_path w1) None :: rest)%list /\
    ending (main pd w1) = ending (main pd w2) /\
    read_attempts rest = [].
Proof.
  intros Hi1 Hi2 Hbase Hex1 Hex2 Hr1 Hr1' Hr2.
  pose proof (loader_semicolon w1 Hex1 Hr1 Hr1') as Hl1.
  pose proof (loader_comma w2 Hex2 Hr2) as Hl2.
  assert (Hpath : csv_path w2 = csv_path w1)
    by (unfold csv_path; now rewrite Hbase).
  assert (Hout : out_dir w2 = out_dir w1)
    by (unfold out_dir; now rewrite Hbase).
  assert (Hfin : final_line w2 = final_line w1)
    by (unfold final_line; now rewrite Hout).
  rewrite (main_after_load w1 (df := df)) by (trivial; now rewrite Hl1).
  rewrite (main_after_load w2 (df := df)) by (trivial; now rewrite Hl2).
  rewrite Hl1, Hl2, Hpath, Hout, Hfin; cbn [trace ending fst snd app].
  eexists; repeat split.
  change (read_attempts (Mkdir ?d :: ?t)) with (read_attempts t).
  apply rendering_reads_nothing, run_tail_is_rendering.
Qed.

Lemma rendering_reads_only (path : string) (t : list (event cell)) :
  Forall is_rendering t -> Forall (reads_only path) t.
Proof. apply Forall_impl; intros [] H; simpl in *; tauto. Qed.

Lemma main_reads (w : World cell) :
  read_attempts (trace (main pd w)) =
  match import_error w with
  | Some _ => []
  | None => read_attempts (trace (loader w))
  end.
Proof.
  destruct (import_error w) as [e|] eqn:Himp.
  - now rewrite (main_without_dependencies w Himp).
  - destruct (ending (loader w)) as [df| |e] eqn:El.
    + rewrite (main_after_load w Himp El); cbn [trace fst].
      change (read_attempts (SnsSet ?x :: ?t)) with (read_attempts t).
      unfold read_attempts at 1; rewrite flat_map_app.
      fold (read_attempts (trace (loader w))).
      change (flat_map ?f (Mkdir ?d :: ?t)) with (flat_map f t).
      match goal with |- (_ ++ ?r)%list = _ => assert (E : r = []) end.
      { apply rendering_reads_nothing, run_tail_is_rendering. }
      rewrite E; apply app_nil_r.
    + now rewrite (main_stops_in_loader w Himp El).
    + now apply loader_never_raises in El.
Qed.

(** X3.  A run calls [read_csv] at most twice, never on another path than
    the CSV next to the script, never with another separator than the
    default followed by [;], and not at all when the file does not exist
    or an import failed. *)
Theorem run_reads_only_the_csv_at_most_twice (w : World cell) :
  Forall (reads_only (csv_path w)) (trace (main pd w)) /\
  (read_attempts (trace (main pd w)) = [] \/
   read_attempts (trace (main pd w)) = [None] \/
   read_attempts (trace (main pd w)) = [None; Some ";"]) /\
  (path_exists w (csv_path w) = false -> read_attempts (trace (main pd w)) = []) /\
  (import_error w <> None -> read_attempts (trace (main pd w)) = []) /\
  (read_attempts (trace (main pd w)) = [None; Some ";"] ->
   exists e, read_csv w (csv_path w) None = inl e).
Proof.
  rewrite main_reads, loader_reads.
  split; [|destruct (import_error w) as [e|]; repeat split; auto; try tauto;
            try discriminate;
            destruct (path_exists w (csv_path w)); auto; try discriminate;
            destruct (read_csv w (csv_path w) None); eauto; discriminate].
  apply main_trace_Forall; simpl; trivial.
  - apply loader_reads_only_the_csv.
  - intros df; apply rendering_reads_only, plot_renderer_only_renders.
Qed.


(** ** The output directory *)

Lemma writes_app (t1 t2 : list (event cell)) :
  writes (t1 ++ t2) = (writes t1 ++ writes t2)%list.
Proof. apply filter_app. Qed.

Lemma writes_without_mkdir (t : list (event cell)) :
  Forall is_not_mkdir t -> writes t = map Savefig (saved t).
Proof.
  induction 1 as [|e t He _ IH]; trivial.
  destruct e; simpl in He; try contradiction;
    unfold writes, saved in *; simpl; now rewrite ?IH.
Qed.

Lemma rendering_is_not_mkdir (t : list (event cell)) :
  Forall is_rendering t -> Forall is_not_mkdir t.
Proof. apply Forall_impl; intros [] H; simpl in *; tauto. Qed.

Lemma plain_saves_nothing (t : list (event cell)) :
  Forall is_plain t -> saved t = [].
Proof.
  intros H; apply flat_map_nil_Forall; revert H.
  apply Forall_impl; intros [] H; simpl in *; tauto.
Qed.

Lemma loader_writes_nothing (w : World cell) : writes (trace (loader w)) = [].
Proof.
  unfold loader, pd_read_csv, when.
  destruct (path_exists w (csv_path w)); [|reflexivity].
  destruct (read_csv w (csv_path w) None); [|reflexivity].
  destruct (read_csv w (csv_path w) (Some ";")); reflexivity.
Qed.


(** X6.  Every path a run saves to is a name joined to the output directory
    next to the script: the script writes nowhere else. *)
Theorem run_saves_only_under_the_output_directory (w : World cell) :
  Forall (fun path => exists name, path = path_join (out_dir w) name)
         (saved (trace (main pd w))).
Proof.
  destruct (import_error w) as [e|] eqn:Himp.
  { rewrite (main_without_dependencies w Himp); constructor. }
  destruct (ending (loader w)) as [df| |e] eqn:El.
  - rewrite (saved_main w Himp El).
    destruct (ending (summary_reporter pd df)); try constructor.
    destruct (plot_renderer_saves (out_dir w) df) as (rest & Hs & _).
    assert (Hall : Forall (fun path => exists name, path = path_join (out_dir w) name)
                     (column_files (out_dir w) (num_cols df)
                        ++ if (1 <? List.length (num_cols df))%nat
                           then [corr_file (out_dir w)] else [])%list).
    { apply Forall_app; split.
      + apply Forall_forall; intros f Hf.
        apply column_files_In in Hf as (c & _ & [-> | ->]); eexists; reflexivity.
      + destruct (1 <? _)%nat; repeat constructor. eexists; reflexivity. }
    rewrite Hs in Hall; now apply Forall_app in Hall.
  - rewrite (main_stops_in_loader w Himp El); cbn [trace fst].
    change (saved (SnsSet ?x :: ?t)) with (saved t).
    rewrite saved_loader; constructor.
  - now apply loader_never_raises in El.
Qed.

(** ** Figures *)

Lemma figure_state_app (b : bool) (t1 t2 : list (event cell)) :
  figure_state b (t1 ++ t2) =
  match figure_state b t1 with
  | Some b' => figure_state b' t2
  | None => None
  end.
Proof.
  revert b; induction t1 as [|e t1 IH]; intros b; trivial.
  destruct e; cbn [app figure_state]; try apply IH;
    destruct b; trivial; apply IH.
Qed.

Lemma figure_state_plain (b : bool) (t : list (event cell)) :
  Forall is_plain t -> figure_state b t = Some b.
Proof.
  induction 1 as [|e t He _ IH]; trivial.
  destruct e; simpl in He; try contradiction; exact IH.
Qed.

Lemma print_is_plain (t : list (event cell)) : Forall is_print t -> Forall is_plain t.
Proof. apply Forall_impl; intros [] H; simpl in *; tauto. Qed.

Lemma figure_state_plot_column (out : string) (df : DataFrame cell) (c : string) :
  figure_state false (trace (plot_column pd out df c))
    = Some (raised (ending (plot_column pd out df c))).
Proof.
  unfold plot_column, attempt.
  destruct (histplot_error pd (dropna pd (getitem df c))); trivial.
  destruct (savefig_error pd (hist_file out c)); trivial.
  destruct (boxplot_error pd (dropna pd (getitem df c))); trivial.
  destruct (savefig_error pd (box_file out c)); trivial.
Qed.

Lemma figure_state_loop (out : string) (df : DataFrame cell) (cs : list string) :
  figure_state false (trace (for_each cs (plot_column pd out df)))
    = Some (raised (ending (for_each cs (plot_column pd out df)))).
Proof.
  induction cs as [|c cs IH]; trivial.
  cbn [for_each].
  rewrite trace_bind, ending_bind, figure_state_app, figure_state_plot_column.
  now destruct (ending (plot_column pd out df c)).
Qed.

Lemma figure_state_plot_correlation (out : string) (df : DataFrame cell) :
  figure_state false (trace (plot_correlation pd out df))
    = Some (raised (ending (plot_correlation pd out df))).
Proof.
  unfold plot_correlation, when, attempt.
  destruct (1 <? List.length (num_cols df))%nat; trivial.
  destruct (heatmap_error pd (getitem_columns df (num_cols df))); trivial.
  destruct (savefig_error pd (corr_file out)); trivial.
Qed.

Lemma figure_state_plot_renderer (out : string) (df : DataFrame cell) :
  figure_state false (trace (plot_renderer pd out df))
    = Some (raised (ending (plot_renderer pd out df))).
Proof.
  destruct (num_cols df) as [|c cs] eqn:E.
  - now rewrite plot_renderer_notice.
  - assert (Hne : num_cols df <> []) by (rewrite E; discriminate).
    rewrite (plot_renderer_trace out df Hne), (plot_renderer_ending out df Hne).
    cbn [figure_state]; rewrite figure_state_app, figure_state_loop.
    destruct (ending (for_each (num_cols df) (plot_column pd out df))); trivial.
    apply figure_state_plot_correlation.
Qed.

(** X7.  Figures are opened one at a time: along every run a figure is
    opened only when none is open, every drawing call, title and [savefig]
    happens on an open figure, and every [close] closes one.  The Plot
    Renderer leaves a figure open exactly when a drawing or saving call
    ends it with an exception: nothing closes the figure on that path.  A
    run that falls off the end or returns early leaves no figure open. *)
Theorem figures_are_opened_one_at_a_time (w : World cell) :
  (exists b, figure_state false (trace (main pd w)) = Some b /\
             (raised (ending (main pd w)) = false -> b = false)) /\
  (forall out df,
     figure_state false (trace (plot_renderer pd out df))
       = Some (raised (ending (plot_renderer pd out df)))).
Proof.
  split; [|apply figure_state_plot_renderer].
  destruct (import_error w) as [e|] eqn:Himp.
  { rewrite (main_without_dependencies w Himp); now exists false. }
  destruct (ending (loader w)) as [df| |e] eqn:El.
  - rewrite (main_after_load w Himp El); cbn [trace ending fst snd figure_state].
    rewrite figure_state_app, (figure_state_plain _ (loader_is_plain w)).
    cbn [figure_state]; rewrite figure_state_app.
    rewrite (figure_state_plain _ (print_is_plain (summary_reporter_only_prints df))).
    destruct (ending (summary_reporter pd df)); try (now exists false).
    rewrite figure_state_app, figure_state_plot_renderer.
    destruct (ending (plot_renderer pd (out_dir w) df));
      cbn [raised figure_state]; eexists; split; try reflexivity; trivial.
  - rewrite (main_stops_in_loader w Himp El); cbn [trace fst figure_state].
    exists false; split; trivial.
    apply figure_state_plain, loader_is_plain.
  - now apply loader_never_raises in El.
Qed.

Lemma dropna_present (s : list cell) :
  Forall (fun v => isna pd v = false) (dropna pd s).
Proof.
  apply Forall_forall; intros v Hv.
  apply filter_In in Hv as [_ Hv]; now apply negb_true_iff in Hv.
Qed.

Lemma plot_renderer_draws_present_values (out : string) (df : DataFrame cell) :
  Forall (draws_present_values pd) (trace (plot_renderer pd out df)).
Proof.
  unfold plot_renderer, plot_correlation, plot_column.
  destruct (num_cols df).
  - repeat constructor.
  - repeat first
      [ apply trace_bind_Forall; [ | intros ? ]
      | apply trace_for_each_Forall; intros ?
      | progress (unfold print, effect, when, attempt, raise; simpl)
      | match goal with |- context [if ?b then _ else _] => destruct b end
      | match goal with
        | |- context [match ?x with Some _ => _ | None => _ end] => destruct x
        end
      | match goal with |- Forall _ (_ :: _) => constructor end
      | match goal with |- Forall _ [] => constructor end
      | apply dropna_present
      | exact I ].
Qed.

(** X8.  No missing value reaches a plot: in every run each histogram and
    each box plot is drawn from values that [isna] rejects. *)
Theorem plots_are_drawn_from_present_values (w : World cell) :
  Forall (draws_present_values pd) (trace (main pd w)).
Proof.
  apply main_trace_Forall; simpl; trivial.
  - generalize (loader_is_plain w).
    apply Forall_impl; intros [] H; simpl in *; tauto.
  - intros df; apply plot_renderer_draws_present_values.
Qed.

(** ** The size of the heat map *)

Lemma py_max_width (K : nat) :
  py_max 6 (inject_Z (Z.of_nat K)) =
  if (K <=? 6)%nat then 6%Q else inject_Z (Z.of_nat K).
Proof.
  unfold py_max.
  destruct (Qlt_le_dec 6 (inject_Z (Z.of_nat K))) as [H | H];
    destruct (K <=? 6)%nat eqn:E; trivial; exfalso;
    [apply Nat.leb_le in E | apply Nat.leb_gt in E];
    unfold Qlt, Qle, inject_Z in H; cbn in H; lia.
Qed.

Lemma py_max_height (K : nat) :
  py_max 4 (inject_Z (Z.of_nat K) / 2) =
  if (K <=? 8)%nat then 4%Q else (inject_Z (Z.of_nat K) / 2)%Q.
Proof.
  unfold py_max.
  destruct (Qlt_le_dec 4 (inject_Z (Z.of_nat K) / 2)) as [H | H];
    destruct (K <=? 8)%nat eqn:E; trivial; exfalso;
    [apply Nat.leb_le in E | apply Nat.leb_gt in E];
    unfold Qlt, Qle, Qdiv, Qmult, Qinv, inject_Z in H; cbn in H; lia.
Qed.

(** X9.  The figure of the heat map, the second call of the correlation
    step, is 6 wide up to six numeric columns and as wide as their number
    beyond; it is 4 high up to eight numeric columns and half their number
    high beyond. *)
Theorem heat_map_figure_size (out : string) (df : DataFrame cell) :
  let K := List.length (num_cols df) in
  2 <= K ->
  nth_error (trace (plot_correlation pd out df)) 1 =
    Some (Figure (if (K <=? 6)%nat then 6%Q else inject_Z (Z.of_nat K),
                  if (K <=? 8)%nat then 4%Q else (inject_Z (Z.of_nat K) / 2)%Q)).
Proof.
  intros K HK.
  destruct (plot_correlation_starts out df HK) as [rest ->].
  cbn [nth_error]; unfold len; fold K.
  now rewrite py_max_width, py_max_height.
Qed.

(** ** Duplicates and distinct rows *)

Lemma list_sum_pred (X : Type) (f : X -> nat) (u : list X) :
  (forall x, In x u -> 1 <= f x) ->
  list_sum (map f u) = list_sum (map (fun x => pred (f x)) u) + List.length u.
Proof.
  induction u as [|x u IH]; intros H; trivial.
  simpl; rewrite IH by (intros y Hy; apply H; now right).
  specialize (H x (or_introl eq_refl)); lia.
Qed.

Lemma nodup_length_NoDup (X : Type) (dec : forall x y : X, {x = y} + {x <> y})
    (l : list X) :
  List.length (nodup dec l) = List.length l <-> NoDup l.
Proof.
  split.
  - induction l as [|x l IH]; [constructor|].
    simpl; destruct (in_dec dec x l) as [Hin | Hout]; simpl; intros H.
    + assert (Hle : List.length (nodup dec l) <= List.length l).
      { apply NoDup_incl_length; [apply NoDup_nodup|].
        intros y Hy; now apply nodup_In in Hy. }
      lia.
    + constructor; trivial; apply IH; lia.
  - intros H; now rewrite nodup_fixed_point.
Qed.

Lemma dup_count_plus_distinct (df : DataFrame cell) :
  dup_count pd df + List.length (nodup (row_eq_dec pd) (df_rows df))
  = List.length (df_rows df).
Proof.
  set (rs := df_rows df); set (u := nodup (row_eq_dec pd) rs).
  assert (Hu : NoDup u) by apply NoDup_nodup.
  assert (Hin : forall r, In r u <-> In r rs) by (intros r; apply nodup_In).
  unfold dup_count, duplicated; fold rs.
  rewrite sum_mask_duplicated_from.
  rewrite (length_by_value (row_eq_dec pd)
             (l := mask_rows rs (duplicated_from pd [] rs)) (u := u)); trivial.
  2:{ intros r Hr; apply Hin; exact (mask_rows_incl _ _ r Hr). }
  rewrite (map_ext _ (fun r => pred (count_occ (row_eq_dec pd) rs r))).
  2:{ intros r; rewrite count_occ_flagged.
      now destruct (in_dec (row_eq_dec pd) r []) as [[]|_]. }
  rewrite (length_by_value (row_eq_dec pd) (l := rs) (u := u)); trivial.
  2:{ intros r Hr; now apply Hin. }
  symmetry; apply list_sum_pred.
  intros r Hr; apply Hin in Hr.
  now apply (count_occ_In (row_eq_dec pd)) in Hr.
Qed.

(** X10.  The duplicate count and the number of distinct rows add up to the
    number of rows.  So the count is zero, and no example is printed,
    exactly when the rows are pairwise different; and it is always smaller
    than the number of rows of a frame that has rows. *)
Theorem duplicate_count_and_distinct_rows (df : DataFrame cell) :
  dup_count pd df + List.length (nodup (row_eq_dec pd) (df_rows df))
    = List.length (df_rows df) /\
  (dup_count pd df = 0 <-> NoDup (df_rows df)) /\
  (trace (report_duplicates pd df) = [Stdout "Filas duplicadas: 0"]
     <-> NoDup (df_rows df)) /\
  (df_rows df <> [] -> dup_count pd df < List.length (df_rows df)).
Proof.
  pose proof (dup_count_plus_distinct df) as Hsum.
  pose proof (nodup_length_NoDup (row_eq_dec pd) (df_rows df)) as Hnd.
  assert (Hzero : dup_count pd df = 0 <-> NoDup (df_rows df)).
  { rewrite <- Hnd; lia. }
  split; [exact Hsum|]. split; [exact Hzero|]. split.
  - rewrite <- Hzero, report_duplicates_run; cbn [trace fst].
    destruct (dup_count pd df) as [|n]; simpl; split; trivial; discriminate.
  - intros Hne.
    destruct (df_rows df) as [|r rs] eqn:E; [contradiction|].
    assert (1 <= List.length (nodup (row_eq_dec pd) (r :: rs))).
    { destruct (nodup (row_eq_dec pd) (r :: rs)) eqn:En; simpl; [|lia].
      assert (Hr : In r (nodup (row_eq_dec pd) (r :: rs)))
        by (apply nodup_In; now left).
      rewrite En in Hr; destruct Hr. }
    lia.
Qed.

(** ** The categorical section *)

Lemma printed_value_count_loop (df : DataFrame cell) (cs : list string) :
  printed (trace (for_each cs (fun c =>
    bind (print cell (nl ++ "Columna: " ++ c)) (fun _ =>
      print cell (repr_value_counts pd
                    (firstn 10 (value_counts pd (getitem df c)))))))) =
  value_count_lines pd df cs.
Proof.
  induction cs as [|c cs IH]; trivial.
  cbn [for_each].
  rewrite bind_normal with (a := tt) by reflexivity.
  cbn [trace fst]; rewrite printed_app, IH; reflexivity.
Qed.

Lemma value_count_lines_length (df : DataFrame cell) (cs : list string) :
  List.length (value_count_lines pd df cs) = 2 * List.length cs.
Proof.
  induction cs as [|c cs IH]; trivial.
  unfold value_count_lines in *; cbn [flat_map app List.length].
  rewrite IH; lia.
Qed.

(** X11.  The categorical section: nothing at all for a frame without text
    columns; otherwise the heading and then, for each column of dtype
    [object] or [category] in column order, a line with its name and its
    frequency table cut to at most ten entries.  The block always runs to
    its end. *)
Theorem categorical_section_lines (df : DataFrame cell) :
  printed (trace (report_value_counts pd df)) =
    match cat_cols df with
    | [] => []
    | _ :: _ =>
        (nl ++ "Conteos para columnas categóricas (primeras 10 categorías si existen):")
          :: value_count_lines pd df (cat_cols df)
    end /\
  cat_cols df =
    map fst (filter (fun c => is_object_or_category (snd c)) (df_columns df)) /\
  List.length (printed (trace (report_value_counts pd df))) =
    match cat_cols df with [] => 0 | _ :: _ => 1 + 2 * List.length (cat_cols df) end /\
  ending (report_value_counts pd df) = Normal tt /\
  (forall c, List.length (firstn 10 (value_counts pd (getitem df c))) <= 10).
Proof.
  assert (Hlines :
    printed (trace (report_value_counts pd df)) =
      match cat_cols df with
      | [] => []
      | _ :: _ =>
          (nl ++ "Conteos para columnas categóricas (primeras 10 categorías si existen):")
            :: value_count_lines pd df (cat_cols df)
      end).
  { unfold report_value_counts.
    destruct (cat_cols df) as [|c cs]; trivial.
    rewrite bind_normal with (a := tt) by reflexivity.
    cbn [trace fst]; rewrite printed_app, printed_value_count_loop; reflexivity. }
  split; [exact Hlines|]. split.
  { rewrite cat_cols_selected; now rewrite select_dtypes_columns. }
  split.
  { rewrite Hlines; destruct (cat_cols df) as [|c cs]; trivial.
    cbn beta iota; cbn [List.length].
    rewrite value_count_lines_length; cbn [List.length]; lia. }
  split; [apply report_value_counts_completes|].
  intros c; rewrite length_firstn; apply Nat.le_min_l.
Qed.

(** ** Plotted and counted columns *)

Lemma NoDup_labels_dtype (cols : list (string * dtype)) (c : string) (d1 d2 : dtype) :
  NoDup (map fst cols) -> In (c, d1) cols -> In (c, d2) cols -> d1 = d2.
Proof.
  induction cols as [|[c0 d0] cols IH]; simpl; intros Hnd H1 H2; [destruct H1|].
  apply NoDup_cons_iff in Hnd as [Hout Hnd'].
  destruct H1 as [E1 | H1]; destruct H2 as [E2 | H2].
  - congruence.
  - injection E1 as -> _.
    exfalso; apply Hout; apply in_map_iff; exists (c, d2); auto.
  - injection E2 as -> _.
    exfalso; apply Hout; apply in_map_iff; exists (c, d1); auto.
  - now apply IH.
Qed.

Lemma num_cols_In (df : DataFrame cell) (c : string) :
  In c (num_cols df) <-> exists d, In (c, d) (df_columns df) /\ is_number d = true.
Proof.
  rewrite num_cols_in_column_order, in_map_iff; split.
  - intros ([c' d] & <- & H); apply filter_In in H as [H1 H2]; eauto.
  - intros (d & H1 & H2); exists (c, d); split; trivial.
    now apply filter_In.
Qed.

Lemma cat_cols_In (df : DataFrame cell) (c : string) :
  In c (cat_cols df) <-> exists d, In (c, d) (df_columns df) /\ is_cat_dtype d = true.
Proof.
  unfold cat_cols; rewrite in_map_iff; split.
  - intros ([c' d] & <- & H); apply filter_In in H as [H1 H2]; eauto.
  - intros (d & H1 & H2); exists (c, d); split; trivial.
    now apply filter_In.
Qed.

(** X12.  In a frame with distinct labels no column is both plotted and
    counted: a column of dtype [int64], [uint64] or [float64] is plotted
    and not counted, a column of dtype [object] or [category] is counted
    and not plotted, and a column of dtype [bool] or [datetime64] is
    neither. *)
Theorem columns_are_plotted_or_counted_never_both
    (df : DataFrame cell) (c : string) (d : dtype) :
  NoDup (labels df) ->
  In (c, d) (df_columns df) ->
  (d = int64 \/ d = uint64 \/ d = float64 ->
   In c (num_cols df) /\ ~ In c (cat_cols df)) /\
  (d = object_ \/ d = category ->
   In c (cat_cols df) /\ ~ In c (num_cols df)) /\
  ~ (In c (num_cols df) /\ In c (cat_cols df)) /\
  (d = bool_ \/ d = datetime64 -> ~ In c (num_cols df) /\ ~ In c (cat_cols df)).
Proof.
  intros Hnd Hc.
  assert (Hn : In c (num_cols df) <-> is_number d = true).
  { rewrite num_cols_In; split; [|eauto].
    intros (d' & Hd' & H); now rewrite (@NoDup_labels_dtype (df_columns df) c d d' Hnd Hc Hd'). }
  assert (Hk : In c (cat_cols df) <-> is_cat_dtype d = true).
  { rewrite cat_cols_In; split; [|eauto].
    intros (d' & Hd' & H); now rewrite (@NoDup_labels_dtype (df_columns df) c d d' Hnd Hc Hd'). }
  rewrite Hn, Hk.
  destruct d; cbn; intuition discriminate.
Qed.

(** ** The Summary Reporter as a whole *)

(** X13.  The Summary Reporter only prints: whatever the frame, and also
    when one of its [describe] calls raises, it reads no file, creates no
    directory, opens no figure and saves nothing. *)
Theorem summary_reporter_touches_nothing_but_stdout (df : DataFrame cell) :
  Forall is_print (trace (summary_reporter pd df)) /\
  List.length (printed (trace (summary_reporter pd df)))
    = List.length (trace (summary_reporter pd df)) /\
  read_attempts (trace (summary_reporter pd df)) = [] /\
  writes (trace (summary_reporter pd df)) = [] /\
  saved (trace (summary_reporter pd df)) = [] /\
  (forall open, figure_state open (trace (summary_reporter pd df)) = Some open).
Proof.
  pose proof (summary_reporter_only_prints df) as H.
  destruct (prints_save_nothing H) as [Hs Hw].
  split; [exact H|]. split.
  { clear Hs Hw; induction H as [|e t He _ IH]; trivial.
    destruct e; simpl in He; try contradiction.
    change (printed (Stdout text :: t)) with (text :: printed t).
    simpl; now rewrite IH. }
  split; [apply rendering_reads_nothing, is_print_is_rendering, H|].
  split; [exact Hw|]. split; [exact Hs|].
  intros open; apply figure_state_plain, print_is_plain, H.
Qed.

(** ** Rectangular frames *)

Lemma picked_length (X Y : Type) (l1 : list X) (l2 : list Y) (idx : list nat) :
  List.length l1 = List.length l2 ->
  List.length (flat_map (fun i => match nth_error l1 i with
                                  | Some v => [v] | None => [] end) idx)
  = List.length (flat_map (fun i => match nth_error l2 i with
                                    | Some v => [v] | None => [] end) idx).
Proof.
  intros Hlen; induction idx as [|i idx IH]; trivial.
  cbn [flat_map]; rewrite !length_app, IH; f_equal.
  destruct (nth_error l1 i) eqn:E1; destruct (nth_error l2 i) eqn:E2; trivial.
  - apply nth_error_None in E2.
    assert (i < List.length l1) by (apply nth_error_Some; congruence); lia.
  - apply nth_error_None in E1.
    assert (i < List.length l2) by (apply nth_error_Some; congruence); lia.
Qed.

Lemma take_columns_rectangular (idx : list nat) (df : DataFrame cell) :
  rectangular df -> rectangular (take_columns idx df).
Proof.
  unfold rectangular, take_columns; cbn [df_rows df_columns]; intros H.
  apply Forall_map; revert H; apply Forall_impl; intros r Hr.
  unfold take_cells; now apply picked_length.
Qed.

Lemma mask_rows_Forall (P : row cell -> Prop) (rs : list (row cell)) (mask : list bool) :
  Forall P rs -> Forall P (mask_rows rs mask).
Proof.
  intros H; apply Forall_forall; intros r Hr.
  apply mask_rows_incl in Hr; revert r Hr; now apply Forall_forall.
Qed.

(** X16.  Every frame the routine derives from a rectangular frame is
    rectangular: the first rows, the rows picked by a mask (the
    duplicates), the columns of some dtypes (what [describe] works on) and
    the columns picked by name (what the correlation is computed on). *)
Theorem derived_frames_are_rectangular (df : DataFrame cell) :
  rectangular df ->
  (forall n, rectangular (head n df)) /\
  (forall mask, rectangular (getitem_mask df mask)) /\
  (forall include, rectangular (select_dtypes include df)) /\
  (forall names, rectangular (getitem_columns df names)) /\
  (forall include d, describe include df = inr d -> rectangular d).
Proof.
  intros H; split; [|split; [|split; [|split]]].
  - intros n; unfold rectangular, head; cbn [df_rows df_columns].
    apply Forall_forall; intros r Hr.
    assert (Hin : In r (df_rows df)).
    { rewrite <- (firstn_skipn n (df_rows df)); apply in_or_app; now left. }
    clear Hr; revert r Hin; now apply Forall_forall.
  - intros mask; unfold rectangular, getitem_mask; cbn [df_rows df_columns].
    now apply mask_rows_Forall.
  - intros include; now apply take_columns_rectangular.
  - intros names; now apply take_columns_rectangular.
  - intros include d; unfold describe.
    destruct (df_columns df); [discriminate|].
    destruct (df_columns (select_dtypes include df)); [discriminate|].
    intros [= <-]; now apply take_columns_rectangular.
Qed.

(** ** Values plotted and values missing *)

Lemma filter_split_length (X : Type) (p : X -> bool) (l : list X) :
  List.length (filter (fun x => negb (p x)) l) + List.length (filter p l)
  = List.length l.
Proof.
  induction l as [|x l IH]; trivial.
  simpl; destruct (p x); simpl; lia.
Qed.

Lemma getitem_length (df : DataFrame cell) (c : string) :
  rectangular df -> In c (labels df) ->
  List.length (getitem df c) = List.length (df_rows df).
Proof.
  intros Hrect Hc.
  apply in_map_iff in Hc as (col & Hcol & Hin).
  destruct (positions_first (fun x => String.eqb (fst x) c) (df_columns df) 0)
    as (i & c' & Hi & Hnth & _).
  { exists col; split; trivial; now apply String.eqb_eq. }
  assert (Hlt : i < List.length (df_columns df))
    by (apply nth_error_Some; congruence).
  unfold getitem, getitem_columns, take_columns, positions.
  cbn [df_rows flat_map]; rewrite Hi, app_nil_r; cbn [Nat.add].
  unfold rectangular in Hrect.
  induction Hrect as [|r rs Hr _ IH]; trivial.
  cbn [map flat_map]; rewrite length_app, IH; cbn [List.length]; f_equal.
  unfold take_cells; cbn [flat_map].
  destruct (nth_error r i) eqn:E; [reflexivity|].
  apply nth_error_None in E; lia.
Qed.

Lemma in_trace_for_each (X : Type) (xs : list X) (body : X -> Run cell unit)
    (x : X) (e : event cell) :
  ending (for_each xs body) = Normal tt ->
  In x xs -> In e (trace (body x)) -> In e (trace (for_each xs body)).
Proof.
  intros Hb Hx He.
  destruct (for_each_complete xs body Hb) as [_ ->].
  apply in_flat_map; eauto.
Qed.

Lemma plot_renderer_loop_completes (out : string) (df : DataFrame cell) :
  num_cols df <> [] ->
  ending (plot_renderer pd out df) = Normal tt ->
  ending (for_each (num_cols df) (plot_column pd out df)) = Normal tt.
Proof.
  intros Hne; rewrite (plot_renderer_ending out df Hne).
  now destruct (ending (for_each (num_cols df) (plot_column pd out df))) as [[]| |].
Qed.

(** X14.  For a numeric column of a rectangular frame, the number of
    non-missing values plus the null count reported for the column is the
    number of rows; and when the Plot Renderer ends without an exception,
    the non-missing values are what it handed to the histogram and to the
    box plot of the column. *)
Theorem plotted_values_and_null_count_add_up
    (out : string) (df : DataFrame cell) (c : string) :
  rectangular df ->
  In c (num_cols df) ->
  In (c, List.length (filter (isna pd) (getitem df c))) (null_counts pd df) /\
  List.length (dropna pd (getitem df c))
    + List.length (filter (isna pd) (getitem df c))
    = List.length (df_rows df) /\
  (ending (plot_renderer pd out df) = Normal tt ->
   In (Histplot (dropna pd (getitem df c)) true) (trace (plot_renderer pd out df)) /\
   In (Boxplot (dropna pd (getitem df c))) (trace (plot_renderer pd out df))).
Proof.
  intros Hrect Hc.
  assert (Hlab : In c (labels df)) by now apply num_cols_are_labels.
  assert (Hne : num_cols df <> []) by (intros E; rewrite E in Hc; destruct Hc).
  split; [|split].
  - unfold null_counts; apply in_map_iff; exists c; auto.
  - unfold dropna; rewrite filter_split_length.
    now apply getitem_length.
  - intros Hend.
    pose proof (plot_renderer_loop_completes out df Hne Hend) as Hloop.
    destruct (for_each_complete _ _ Hloop) as [Hall _].
    assert (Hin : forall e, In e (column_events pd out df c) ->
                            In e (trace (plot_renderer pd out df))).
    { intros e He; rewrite (plot_renderer_trace out df Hne).
      right; apply in_or_app; left.
      apply in_trace_for_each with (x := c); trivial.
      now rewrite (plot_column_complete out df c (Hall c Hc)). }
    split; apply Hin; unfold column_events; simpl; auto 12.
Qed.

(** ** Runs that complete *)

(** X15.  A run that falls off the end has plotted: it printed the heading
    of the plots, it saved a histogram and a box plot for every numeric
    column, of which there is at least one, and the correlation matrix with
    two or more, in this order; and its last event is the closing line. *)
Theorem completed_run_has_plots (w : World cell) :
  ending (main pd w) = Normal tt ->
  In (nl ++ "Generando histogramas y boxplots para columnas numéricas (guardados en ./output)")
     (printed (trace (main pd w))) /\
  (exists df, ending (loader w) = Normal df /\
     num_cols df <> [] /\
     saved (trace (main pd w)) =
       (column_files (out_dir w) (num_cols df)
          ++ if (1 <? List.length (num_cols df))%nat
             then [corr_file (out_dir w)] else [])%list) /\
  2 <= List.length (saved (trace (main pd w))) /\
  exists before, trace (main pd w) = (before ++ [Stdout (final_line w)])%list.
Proof.
  intros H; destruct (main_normal_inv w H) as (Himp & df & El & Hs & Hp & Hn).
  assert (Hrun : trace (main pd w) =
            (SnsSet "whitegrid" :: trace (loader w)
               ++ Mkdir (out_dir w) :: trace (summary_reporter pd df)
               ++ trace (plot_renderer pd (out_dir w) df)
               ++ [Stdout (final_line w)])%list).
  { now rewrite (main_after_load w Himp El), Hs, Hp. }
  assert (Hsaved : saved (trace (main pd w)) =
            (column_files (out_dir w) (num_cols df)
               ++ if (1 <? List.length (num_cols df))%nat
                  then [corr_file (out_dir w)] else [])%list).
  { rewrite (saved_main w Himp El), Hs.
    now apply plot_renderer_saves_complete. }
  split; [|split; [|split]].
  - apply in_flat_map.
    exists (Stdout (nl ++ "Generando histogramas y boxplots para columnas numéricas (guardados en ./output)")).
    split; [|now left].
    rewrite Hrun; right; apply in_or_app; right; right.
    apply in_or_app; right; apply in_or_app; left.
    rewrite (plot_renderer_trace (out_dir w) df Hn); now left.
  - exists df; auto.
  - rewrite Hsaved, length_app, column_files_length.
    destruct (num_cols df); [contradiction | simpl; lia].
  - rewrite Hrun.
    eexists (SnsSet "whitegrid" :: trace (loader w)
               ++ Mkdir (out_dir w) :: trace (summary_reporter pd df)
               ++ trace (plot_renderer pd (out_dir w) df))%list.
    cbn [app]; f_equal.
    rewrite <- !app_assoc; cbn [app]; f_equal; f_equal.
    now rewrite <- app_assoc.
Qed.

(** ** A Plot Renderer that is interrupted *)

(** X18.  The Plot Renderer stops at the first of its drawing and saving
    calls that raises and ends with that exception; it ends normally when
    none raises.  Nothing is undone on the way out: what was saved before
    stays saved, so the files saved are the beginning of the full list, a
    histogram and a box plot per numeric column in column order and then
    the correlation matrix when there is more than one; and the full list
    when it ends normally. *)
Theorem plot_renderer_stops_at_the_first_exception
    (out : string) (df : DataFrame cell) :
  ending (plot_renderer pd out df) =
    match first_error (plot_calls pd out df) with
    | Some e => Raised e
    | None => Normal tt
    end /\
  exists rest,
    (column_files out (num_cols df)
       ++ if (1 <? List.length (num_cols df))%nat then [corr_file out] else [])%list
      = (saved (trace (plot_renderer pd out df)) ++ rest)%list /\
    (first_error (plot_calls pd out df) = None -> rest = []).
Proof.
  split; [apply plot_renderer_ending_calls|].
  destruct (plot_renderer_saves out df) as (rest & Hs & Hn).
  exists rest; split; trivial.
  intros Hf; apply Hn.
  now rewrite plot_renderer_ending_calls, Hf.
Qed.

(** ** Null counts *)

(** X17.  The null counts have one entry per column, in column order, a
    column without missing values included with count zero; in a
    rectangular frame no count exceeds the number of rows, and a count is
    zero exactly when [dropna] keeps every value of the column. *)
Theorem null_counts_per_column (df : DataFrame cell) :
  map fst (null_counts pd df) = labels df /\
  (forall c n, In (c, n) (null_counts pd df) ->
     n = List.length (filter (isna pd) (getitem df c)) /\
     (n = 0 <-> dropna pd (getitem df c) = getitem df c) /\
     (rectangular df -> n <= List.length (df_rows df))).
Proof.
  split.
  - unfold null_counts, labels; rewrite map_map; cbn [fst]; apply map_id.
  - intros c n Hin.
    unfold null_counts in Hin; apply in_map_iff in Hin as (c' & [= <- <-] & Hc).
    split; [reflexivity|]. split.
    + unfold dropna.
      induction (getitem df c') as [|v l IH]; [tauto|].
      simpl; destruct (isna pd v) eqn:E; simpl.
      * split; [discriminate|].
        intros H; exfalso.
        assert (Hl : List.length (filter (fun x => negb (isna pd x)) l)
                     <= List.length l) by apply filter_length_le.
        apply (f_equal (@List.length cell)) in H; simpl in H; lia.
      * rewrite IH; split; [now intros -> | now intros [= ->]].
    + intros Hrect.
      rewrite <- (@getitem_length df c' Hrect Hc).
      apply filter_length_le.
Qed.

End Facts.

(** * Concrete runs *)

Module Runs.

Import Sample.

(** The whole run on [age,city]: every block is reached. *)
Example people_run_completes :
  ending (main pd w_people) = Normal tt /\
  saved (trace (main pd w_people)) =
    ["/srv/eda/output/hist_age.png"; "/srv/eda/output/box_age.png"] /\
  writes (trace (main pd w_people)) =
    [Mkdir "/srv/eda/output";
     Savefig "/srv/eda/output/hist_age.png";
     Savefig "/srv/eda/output/box_age.png"].
Proof. repeat split. Qed.

(** The whole run on two numeric columns and a text column. *)
Example survey_run_completes :
  ending (main pd w_survey) = Normal tt /\
  writes (trace (main pd w_survey)) =
    [Mkdir "/srv/eda/output";
     Savefig "/srv/eda/output/hist_age.png";
     Savefig "/srv/eda/output/box_age.png";
     Savefig "/srv/eda/output/hist_income.png";
     Savefig "/srv/eda/output/box_income.png";
     Savefig "/srv/eda/output/correlation_matrix.png"] /\
  In "Filas duplicadas: 1" (printed (trace (main pd w_survey))).
Proof. repeat split; simpl; auto 40. Qed.

(** Figure sizes of the heat map for two and for nine numeric columns. *)
Example heat_map_figure_sizes :
  (py_max 6 2 = 6 /\ py_max 4 (2 / 2) = 4 /\
   py_max 6 9 = 9 /\ py_max 4 (9 / 2) = 9 / 2)%Q.
Proof. repeat split. Qed.

(** The file that parses with [;] only is loaded on the second attempt. *)
Example semicolon_run_loads :
  loader w_semicolon =
    ([Stdout ("Cargando: /srv/eda/datos_sinteticos.csv" ++ nl);
      ReadCsv "/srv/eda/datos_sinteticos.csv" None;
      ReadCsv "/srv/eda/datos_sinteticos.csv" (Some ";")], Normal people).
Proof. reflexivity. Qed.

(** The run on a file with one text column. *)
Example cities_run_raises :
  main pd w_cities =
    ([SnsSet "whitegrid";
      Stdout ("Cargando: /srv/eda/datos_sinteticos.csv" ++ nl);
      ReadCsv "/srv/eda/datos_sinteticos.csv" None;
      Mkdir "/srv/eda/output";
      Stdout "Primeras 5 filas:";
      Stdout ("city" ++ nl ++ "Cali" ++ nl ++ "Tunja");
      Stdout rule;
      Stdout "Dimensiones (filas, columnas): (2, 1)";
      Stdout (nl ++ "Tipos de columnas:");
      Stdout "city object";
      Stdout rule;
      Stdout "Valores nulos por columna:";
      Stdout "city 0";
      Stdout rule;
      Stdout "Estadísticas descriptivas (numéricas):"],
     Raised (ValueError "No objects to concatenate")).
Proof. reflexivity. Qed.

(** The run on a file with numeric columns only stops at the second
    [describe], before any plot. *)
Example measures_run_raises :
  ending (main pd w_measures) = Raised (ValueError "No objects to concatenate") /\
  saved (trace (main pd w_measures)) = [] /\
  last (printed (trace (main pd w_measures))) EmptyString = "Estadísticas (no numéricas):".
Proof. repeat split. Qed.

(** The Plot Renderer alone, on the numeric file. *)
Example measures_plots :
  saved (trace (plot_renderer pd output measures)) =
    ["/srv/eda/output/hist_alto.png"; "/srv/eda/output/box_alto.png";
     "/srv/eda/output/hist_ancho.png"; "/srv/eda/output/box_ancho.png";
     "/srv/eda/output/hist_peso.png"; "/srv/eda/output/box_peso.png";
     "/srv/eda/output/correlation_matrix.png"].
Proof. reflexivity. Qed.

(** Without the dependencies the missing CSV is not even looked for. *)
Example bare_run :
  printed (trace (main pd w_bare)) =
    ["Faltan dependencias necesarias para ejecutar el análisis.";
     "Instala las librerías con:" ++ nl ++ "    pip install pandas matplotlib seaborn";
     "Error de importación: No module named 'pandas'"].
Proof. reflexivity. Qed.

Lemma loader_retries_once_then_gives_up_witness :
  read_attempts (trace (main pd w_unparseable)) = [None; Some ";"] /\
  (forall e2, read_csv w_unparseable (csv_path w_unparseable) (Some ";") = inl e2 ->
     main pd w_unparseable =
       ([SnsSet "whitegrid";
         Stdout ("Cargando: " ++ csv_path w_unparseable ++ nl);
         ReadCsv (csv_path w_unparseable) None;
         ReadCsv (csv_path w_unparseable) (Some ";");
         Stdout "Error leyendo el CSV. Mostrar traceback:";
         PrintExc e2 ParserError], Returned)).
Proof.
  apply (loader_retries_once_then_gives_up pd w_unparseable (e1 := ParserError));
    reflexivity.
Defined.

Lemma missing_file_is_reported_before_any_output_witness :
  main pd w_missing =
    ([SnsSet "whitegrid";
      Stdout "No se encontró el archivo: /srv/eda/datos_sinteticos.csv"], Returned).
Proof.
  destruct (missing_file_is_reported_before_any_output pd w_missing eq_refl)
    as (_ & _ & _ & Hrun).
  exact (Hrun eq_refl).
Defined.

Lemma shape_line_is_rows_and_columns_witness :
  nth_error (printed (trace (main pd w_people))) 4 =
    Some "Dimensiones (filas, columnas): (3, 2)".
Proof.
  exact (shape_line_is_rows_and_columns pd w_people (df := people)
           eq_refl eq_refl eq_refl eq_refl eq_refl).
Defined.

(** The two copies print the same lines but for the two that carry a path. *)
Example copies_print_the_same_summary :
  removelast (tl (printed (trace (main pd w_people)))) =
  removelast (tl (printed (trace (main pd w_people_copy)))).
Proof. reflexivity. Qed.

Lemma summary_reporter_completes_iff_both_kinds_witness :
  (exists msg, ending (summary_reporter pd cities) = Raised (ValueError msg)) /\
  (exists msg, ending (summary_reporter pd measures) = Raised (ValueError msg)) /\
  ending (summary_reporter pd people) = Normal tt.
Proof.
  split; [|split].
  - destruct (summary_reporter_completes_iff_both_kinds pd cities) as (_ & H).
    apply H; now left.
  - destruct (summary_reporter_completes_iff_both_kinds pd measures) as (_ & H).
    apply H; now right.
  - destruct (summary_reporter_completes_iff_both_kinds pd people) as ((_ & H) & _).
    apply H; split; discriminate.
Defined.

Lemma run_without_numeric_columns_stops_before_the_notice_witness :
  exists msg, ending (main pd w_cities) = Raised (ValueError msg).
Proof.
  destruct (run_without_numeric_columns_stops_before_the_notice
              pd w_cities (df := cities) eq_refl eq_refl eq_refl)
    as (msg & Hrun & _).
  exists msg; now rewrite Hrun.
Defined.

(** The run on a numeric column named [km/h]: the first [savefig] raises,
    nothing is saved and the figure stays open. *)
Example trips_run_raises :
  ending (main pd w_trips) =
    Raised (Exn "FileNotFoundError"
                "No such file or directory: /srv/eda/output/hist_km/h.png") /\
  saved (trace (main pd w_trips)) = [] /\
  figure_state false (trace (main pd w_trips)) = Some true /\
  last (trace (main pd w_trips)) Close = TightLayout.
Proof. repeat split. Qed.

Lemma run_lacking_a_kind_of_column_prints_no_duplicate_count_witness :
  report_duplicates pd cities = ([Stdout "Filas duplicadas: 0"], Normal tt) /\
  (exists msg, ending (main pd w_cities) = Raised (ValueError msg)) /\
  (exists msg, ending (main pd w_measures) = Raised (ValueError msg)).
Proof.
  destruct (@run_lacking_a_kind_of_column_prints_no_duplicate_count
              cell pd w_cities cities eq_refl eq_refl (or_introl eq_refl))
    as ((msg & between & Hrun & _) & Hdup & _).
  destruct (@run_lacking_a_kind_of_column_prints_no_duplicate_count
              cell pd w_measures measures eq_refl eq_refl (or_intror eq_refl))
    as ((msg' & between' & Hrun' & _) & _).
  split; [exact Hdup | split].
  - exists msg; now rewrite Hrun.
  - exists msg'; now rewrite Hrun'.
Defined.

Lemma run_saves_every_pair_only_when_nothing_raises_witness :
  List.length (num_cols measures) = 3 /\
  saved (trace (main pd w_measures)) = [] /\
  List.length (num_cols trips) = 2 /\
  saved (trace (main pd w_trips)) = [].
Proof.
  assert (H3 : 1 <= List.length (num_cols measures)) by (simpl; lia).
  assert (H2 : 1 <= List.length (num_cols trips)) by (simpl; lia).
  pose proof (@run_saves_every_pair_only_when_nothing_raises
                cell pd w_measures measures eq_refl eq_refl H3) as Hm.
  pose proof (@run_saves_every_pair_only_when_nothing_raises
                cell pd w_trips trips eq_refl eq_refl H2) as Ht.
  cbv zeta in Hm, Ht.
  destruct Hm as (_ & Hnone & _).
  destruct Ht as (_ & _ & Hsave & _).
  split; [reflexivity | split; [|split; [reflexivity|]]].
  - now destruct (Hnone eq_refl).
  - exact (proj1 (Hsave "km/h"
                    (Exn "FileNotFoundError"
                         "No such file or directory: /srv/eda/output/hist_km/h.png")
                    eq_refl eq_refl eq_refl eq_refl)).
Defined.

Lemma run_saves_the_correlation_matrix_only_when_nothing_raises_witness :
  2 <= List.length (num_cols measures) /\
  ~ In "/srv/eda/output/correlation_matrix.png" (saved (trace (main pd w_measures))).
Proof.
  pose proof (@run_saves_the_correlation_matrix_only_when_nothing_raises
                cell pd w_measures measures eq_refl eq_refl) as H.
  cbv zeta in H; destruct H as (_ & Hnot & _).
  split; [simpl; lia | now destruct (Hnot eq_refl)].
Defined.

End Runs.

(** * More concrete runs *)

Module MoreRuns.

Import Sample.

(** The figure discipline is a real constraint: these traces break it. *)
Example figure_state_rejects :
  figure_state false [Savefig (cell := cell) "a.png"] = None /\
  figure_state false [Figure (cell := cell) (8, 4)%Q; Figure (6, 4)%Q] = None /\
  figure_state false [Close (cell := cell)] = None /\
  figure_state false [Figure (cell := cell) (8, 4)%Q] = Some true.
Proof. repeat split. Qed.

(** The row with the missing income is counted and not plotted. *)
Example survey_income :
  In ("income", 1) (null_counts pd survey) /\
  In (Histplot ["1200.5"; "980.0"; "1200.5"] true)
     (trace (main pd w_survey)).
Proof. split; simpl; auto 60. Qed.

(** On [km/h, km, city] the second call of the Plot Renderer is the one
    that raises. *)
Example trips_plot_calls :
  firstn 2 (plot_calls pd output trips) =
    [None;
     Some (Exn "FileNotFoundError"
               "No such file or directory: /srv/eda/output/hist_km/h.png")] /\
  List.length (plot_calls pd output trips) = 10 /\
  first_error (plot_calls pd output survey) = None.
Proof. repeat split. Qed.

Lemma missing_dependencies_stop_the_run_witness :
  ending (main pd w_bare) = Returned /\
  read_attempts (trace (main pd w_bare)) = [].
Proof.
  destruct (missing_dependencies_stop_the_run pd w_bare eq_refl)
    as (Hend & _ & _ & Hread & _).
  now split.
Defined.

Lemma fallback_run_matches_direct_run_witness :
  exists rest,
    trace (main pd w_semicolon) =
      (SnsSet "whitegrid"
         :: Stdout ("Cargando: " ++ csv_path w_semicolon ++ nl)
         :: ReadCsv (csv_path w_semicolon) None
         :: ReadCsv (csv_path w_semicolon) (Some ";") :: rest)%list /\
    trace (main pd w_people) =
      (SnsSet "whitegrid"
         :: Stdout ("Cargando: " ++ csv_path w_semicolon ++ nl)
         :: ReadCsv (csv_path w_semicolon) None :: rest)%list /\
    ending (main pd w_semicolon) = ending (main pd w_people) /\
    read_attempts rest = [].
Proof.
  apply (fallback_run_matches_direct_run pd w_semicolon w_people
           (e1 := ParserError) (df := people)); reflexivity.
Defined.

Lemma heat_map_figure_size_witness :
  nth_error (trace (plot_correlation pd output wide)) 1 =
    Some (Figure (cell := cell) (inject_Z 9, inject_Z 9 / 2)%Q) /\
  nth_error (trace (plot_correlation pd output survey)) 1 =
    Some (Figure (cell := cell) (6, 4)%Q).
Proof.
  split.
  - apply (heat_map_figure_size pd output wide); simpl; lia.
  - apply (heat_map_figure_size pd output survey); simpl; lia.
Defined.

Lemma columns_are_plotted_or_counted_never_both_witness :
  In "age" (num_cols survey) /\ ~ In "age" (cat_cols survey).
Proof.
  assert (Hnd : NoDup (labels survey)).
  { repeat constructor; simpl; intuition discriminate. }
  assert (Hin : In ("age", int64) (df_columns survey)) by (simpl; auto).
  destruct (@columns_are_plotted_or_counted_never_both
              cell survey "age" int64 Hnd Hin)
    as (Hnum & _).
  apply Hnum; now left.
Defined.

Lemma plotted_values_and_null_count_add_up_witness :
  List.length (dropna pd (getitem survey "income"))
    + List.length (filter (isna pd) (getitem survey "income")) = 4 /\
  In (Histplot ["1200.5"; "980.0"; "1200.5"] true)
     (trace (plot_renderer pd output survey)).
Proof.
  assert (Hrect : rectangular survey) by (repeat constructor).
  assert (Hin : In "income" (num_cols survey)) by (simpl; auto).
  destruct (@plotted_values_and_null_count_add_up
              cell pd output survey "income" Hrect Hin)
    as (_ & Hsum & Hplots).
  split; [exact Hsum | now destruct (Hplots eq_refl)].
Defined.

Lemma completed_run_has_plots_witness :
  2 <= List.length (saved (trace (main pd w_survey))).
Proof.
  destruct (@completed_run_has_plots cell pd w_survey eq_refl)
    as (_ & _ & Hsaved & _).
  exact Hsaved.
Defined.

Lemma derived_frames_are_rectangular_witness :
  rectangular (head 5 survey) /\
  rectangular (getitem_mask survey (duplicated pd survey)) /\
  rectangular (select_dtypes is_number survey).
Proof.
  assert (Hrect : rectangular survey) by (repeat constructor).
  destruct (@derived_frames_are_rectangular cell survey Hrect)
    as (Hhead & Hmask & Hsel & _).
  split; [apply Hhead | split; [apply Hmask | apply Hsel]].
Defined.

End MoreRuns.
